(** * plot.py: the loader and the shaper of the population dashboard

    A shallow embedding of [load_data] and [preprocess_data] of
    [src/plot.py].  The pandas objects the script manipulates are
    modelled as they behave at run time:

    - a [DataFrame] is a list of column labels and a list of rows of
      cells; a cell is a string, a number or the missing value NaN;
    - data frames are objects: the script holds references to them,
      some operations build a new object ([melt], [rename], boolean
      indexing, [dropna]) and some update an object in place
      ([df[key] = values]).  The heap of frames is threaded through a
      state-and-exception monad, so that aliasing is visible;
    - a raised Python exception ends the run with [Raise].

    The numeric parser of pandas, Python's printing of numbers and the
    reference list of the country converter are libraries outside the
    repository: they are section variables. *)

From stdpp Require Import gmap strings list sorting.
From Stdlib Require Import DecimalString.

(** ** Exceptions and results *)

(** The exceptions of Python that the modelled code can raise.
    [BadReference] is no exception of Python: it stands for the use of
    a reference that is not on the heap, which no run from a valid
    reference reaches. *)
Inductive exn :=
  | KeyError (key : string)
  | IndexError
  | ValueError (msg : string)
  | BadReference.

Inductive result (A : Type) :=
  | Ok (a : A)
  | Raise (e : exn).
Arguments Ok {A} a.
Arguments Raise {A} e.

#[global] Instance result_ret : MRet result := λ A a, Ok a.
#[global] Instance result_bind : MBind result := λ A B f r,
  match r with
  | Ok a => f a
  | Raise e => Raise e
  end.

(** ** Cells and data frames *)

Inductive cell (num : Type) :=
  | CStr (s : string)
  | CNum (n : num)
  | CNaN.
Arguments CStr {num} s.
Arguments CNum {num} n.
Arguments CNaN {num}.

Record DataFrame (num : Type) := mkDataFrame {
  columns : list string;
  rows : list (list (cell num))
}.
Arguments mkDataFrame {num} columns rows.
Arguments columns {num} d.
Arguments rows {num} d.

(** Frames are objects on a heap; a reference is a position in it. *)
Abbreviation heap num := (list (DataFrame num)) (only parsing).
Definition loc := nat.

(** [s.replace(old, new)] of Python for a one-character [old]. *)
Fixpoint str_replace (old : Ascii.ascii) (new : string) (s : string) : string :=
  match s with
  | EmptyString => EmptyString
  | String a s' =>
      if decide (a = old) then new +:+ str_replace old new s'
      else String a (str_replace old new s')
  end.

Definition comma : Ascii.ascii := Ascii.ascii_of_nat 44.

(** The labels that [preprocess_data] passes to [isin]. *)
Definition aggregate_labels : list string := ["International"; "Global"].

Section Frames.
Context {num : Type}.
Implicit Types (df : DataFrame num) (v : cell num) (r : list (cell num)).

(** *** Column access *)

(** [columns.get_loc(key)]: the position of a label. *)
Definition get_loc (cols : list string) (key : string) : option nat :=
  fst <$> list_find (λ c, c = key) cols.

Definition cell_at (i : nat) r : cell num := default CNaN (r !! i).

(** [df[key]]: the values of a column; [KeyError] for an unknown label. *)
Definition getitem df (key : string) : result (list (cell num)) :=
  match get_loc (columns df) key with
  | Some i => Ok (cell_at i <$> rows df)
  | None => Raise (KeyError key)
  end.

(** [row[key]] and [row[key] = x] for a row of a frame with labels
    [cols]: an existing column is overwritten where it stands, a new
    one is appended. *)
Definition field (cols : list string) (key : string) r : cell num :=
  match get_loc cols key with
  | Some i => cell_at i r
  | None => CNaN
  end.

Definition set_field (cols : list string) (key : string) (x : cell num) r : list (cell num) :=
  match get_loc cols key with
  | Some i => <[i:=x]> r
  | None => r ++ [x]
  end.

Definition set_columns (cols : list string) (key : string) : list string :=
  match get_loc cols key with
  | Some _ => cols
  | None => cols ++ [key]
  end.

(** [df[key] = vals] as a function of the frame's value.  pandas
    refuses values of another length than the frame. *)
Definition setitem df (key : string) (vals : list (cell num)) : result (DataFrame num) :=
  if bool_decide (length vals = length (rows df)) then
    Ok (mkDataFrame (set_columns (columns df) key)
          (zip_with (λ r x, set_field (columns df) key x r) (rows df) vals))
  else Raise (ValueError "Length of values does not match length of index").

(** [df[mask]]: the rows whose mask entry is [True].  The masks of the
    script are computed from a column of the frame they select from,
    so that they have its length. *)
Fixpoint mask_rows {A} (l : list A) (mask : list bool) : list A :=
  match l, mask with
  | x :: l', b :: mask' => if b then x :: mask_rows l' mask' else mask_rows l' mask'
  | _, _ => []
  end.

Definition select df (mask : list bool) : DataFrame num :=
  mkDataFrame (columns df) (mask_rows (rows df) mask).

Definition is_na v : bool :=
  match v with CNaN => true | _ => false end.

(** [df.dropna(subset=[key])]. *)
Definition dropna df (key : string) : result (DataFrame num) :=
  match get_loc (columns df) key with
  | Some i => Ok (mkDataFrame (columns df) (filter (λ r, ¬ is_na (cell_at i r)) (rows df)))
  | None => Raise (KeyError key)
  end.

(** [df.rename(columns={old: new})]. *)
Definition rename df (old new : string) : DataFrame num :=
  mkDataFrame ((λ c, if decide (c = old) then new else c) <$> columns df) (rows df).

(** The rows of [df.melt]: column after column, and inside a column
    row after row; [i] is the position of the identifier column and
    [j] the position of the first label of [cols]. *)
Fixpoint melt_rows (i j : nat) (id_var : string) (cols : list string)
    (rs : list (list (cell num))) : list (list (cell num)) :=
  match cols with
  | [] => []
  | c :: cols' =>
      (if decide (c = id_var) then []
       else (λ r, [cell_at i r; CStr c; cell_at j r]) <$> rs)
      ++ melt_rows i (S j) id_var cols' rs
  end.

(** [df.melt(id_vars=[id_var], var_name=..., value_name=...)] of
    pandas 2: a [value_name] that is a label of the frame is refused,
    then an [id_var] that is none.  Every other column is a value
    column. *)
Definition melt df (id_var var_name value_name : string) : result (DataFrame num) :=
  if bool_decide (value_name ∈ columns df) then
    Raise (ValueError "value_name cannot match an element in the DataFrame columns")
  else
    match get_loc (columns df) id_var with
    | Some i =>
        Ok (mkDataFrame [id_var; var_name; value_name]
              (melt_rows i 0 id_var (columns df) (rows df)))
    | None => Raise (KeyError id_var)
    end.

(** [Series.isin(labels)] on one entry. *)
Definition isin (labels : list string) v : bool :=
  match v with
  | CStr s => bool_decide (s ∈ labels)
  | _ => false
  end.

(** *** The heap of frames *)

Definition M (A : Type) : Type := heap num → result (A * heap num).

#[global] Instance M_ret : MRet M := λ A a h, Ok (a, h).
#[global] Instance M_bind : MBind M := λ A B f m h,
  match m h with
  | Ok (a, h') => f a h'
  | Raise e => Raise e
  end.

Definition raise {A} (e : exn) : M A := λ _, Raise e.
Definition lift {A} (r : result A) : M A :=
  λ h, match r with Ok a => Ok (a, h) | Raise e => Raise e end.

Definition new (d : DataFrame num) : M loc := λ h, Ok (length h, h ++ [d]).
Definition deref (l : loc) : M (DataFrame num) :=
  λ h, match h !! l with Some d => Ok (d, h) | None => Raise BadReference end.
Definition assign (l : loc) (d : DataFrame num) : M unit :=
  λ h, Ok (tt, <[l:=d]> h).

(** The operations of the script on references. *)
Definition df_columns (l : loc) : M (list string) :=
  d ← deref l; mret (columns d).
Definition df_getitem (l : loc) (key : string) : M (list (cell num)) :=
  d ← deref l; lift (getitem d key).
Definition df_setitem (l : loc) (key : string) (vals : list (cell num)) : M unit :=
  d ← deref l; d' ← lift (setitem d key vals); assign l d'.
Definition df_setitem_scalar (l : loc) (key : string) v : M unit :=
  d ← deref l; d' ← lift (setitem d key (replicate (length (rows d)) v)); assign l d'.
Definition df_select (l : loc) (mask : list bool) : M loc :=
  d ← deref l; new (select d mask).
Definition df_dropna (l : loc) (key : string) : M loc :=
  d ← deref l; d' ← lift (dropna d key); new d'.
Definition df_rename (l : loc) (old new_label : string) : M loc :=
  d ← deref l; new (rename d old new_label).
Definition df_melt (l : loc) (id_var var_name value_name : string) : M loc :=
  d ← deref l; d' ← lift (melt d id_var var_name value_name); new d'.

(** [cols[i]] on the column index. *)
Definition item (cols : list string) (i : nat) : M string :=
  match cols !! i with Some c => mret c | None => raise IndexError end.

(** ** The libraries *)

(** [str(x)] for a numeric cell. *)
Variable str_of_num : num → string.
(** The parser of [pd.to_numeric] on one string; [None] when the
    string is no number. *)
Variable to_numeric : string → option num.
(** [cc.convert(names, to='ISO3')] on one entry of [names]. *)
Variable convert : cell num → cell num.

(** [Series.astype(str)] on one entry. *)
Definition astype_str v : string :=
  match v with
  | CStr s => s
  | CNum n => str_of_num n
  | CNaN => "nan"
  end.

(** [pd.to_numeric(..., errors='coerce')] on one entry. *)
Definition to_numeric_coerce (s : string) : cell num :=
  match to_numeric s with Some n => CNum n | None => CNaN end.

(** The right-hand side of line 35 on one entry. *)
Definition coerce_value v : cell num :=
  to_numeric_coerce (str_replace comma EmptyString (astype_str v)).

(** ** [preprocess_data] (plot.py, lines 15-37) *)

Definition preprocess_data (df : loc) : M (loc * loc) :=
  cols ← df_columns df;
  df_melted ←
    (if bool_decide (2 < length cols) then
       df_melt df "Country" "Month" "Value"
     else
       c1 ← item cols 1;
       df_melted ← df_rename df c1 "Value";
       cols' ← df_columns df;
       c1' ← item cols' 1;
       df_setitem_scalar df_melted "Month" (CStr c1');;
       mret df_melted);
  country ← df_getitem df_melted "Country";
  global_data ← df_select df_melted (isin aggregate_labels <$> country);
  country ← df_getitem df_melted "Country";
  df_melted ← df_select df_melted (negb <$> (isin aggregate_labels <$> country));
  country ← df_getitem df_melted "Country";
  df_setitem df_melted "iso3" (convert <$> country);;
  df_melted ← df_dropna df_melted "iso3";
  value ← df_getitem df_melted "Value";
  df_setitem df_melted "Value" (coerce_value <$> value);;
  mret (df_melted, global_data).

(** The table-shaped results of a call: [preprocess_data] run on a heap
    that holds the table alone, and the two frames behind the
    references it returns (country-level first, aggregates second). *)
Definition Shaper df : result (DataFrame num * DataFrame num) :=
  match preprocess_data 0 [df] with
  | Ok ((lc, lg), h) =>
      match h !! lc, h !! lg with
      | Some c, Some g => Ok (c, g)
      | _, _ => Raise BadReference
      end
  | Raise e => Raise e
  end.

(** ** The frames a call creates *)

(** Lines 17-21 as a function of the table's value. *)
Definition reshape df : result (DataFrame num) :=
  if bool_decide (2 < length (columns df)) then melt df "Country" "Month" "Value"
  else
    match columns df !! 1 with
    | Some c1 =>
        setitem (rename df c1 "Value") "Month" (replicate (length (rows df)) (CStr c1))
    | None => Raise IndexError
    end.

(** The four frames a call allocates, in the order of their creation
    and in their final state: the reshaped frame, the aggregates, the
    country rows with their [iso3] column, the frame returned first. *)
Definition shaper_trace df
    : result (DataFrame num * DataFrame num * DataFrame num * DataFrame num) :=
  m ← reshape df;
  country ← getitem m "Country";
  let g := select m (isin aggregate_labels <$> country) in
  let rest := select m (negb <$> (isin aggregate_labels <$> country)) in
  country' ← getitem rest "Country";
  with_iso ← setitem rest "iso3" (convert <$> country');
  kept ← dropna with_iso "iso3";
  value ← getitem kept "Value";
  final ← setitem kept "Value" (coerce_value <$> value);
  mret (m, g, with_iso, final).

(** *** The rows of the results, read off the reshaped frame [m] *)

Definition is_aggregate (m : DataFrame num) r : bool :=
  isin aggregate_labels (field (columns m) "Country" r).

Definition iso3_of (m : DataFrame num) r : cell num :=
  convert (field (columns m) "Country" r).

(** A row of the reshaped frame after lines 29 and 35. *)
Definition with_iso3 (m : DataFrame num) r : list (cell num) :=
  set_field (columns m) "iso3" (iso3_of m r) r.

Definition finish (m : DataFrame num) r : list (cell num) :=
  set_field (columns m ++ ["iso3"]) "Value"
    (coerce_value (field (columns m) "Value" r)) (with_iso3 m r).

Definition aggregate_frame (m : DataFrame num) : DataFrame num :=
  mkDataFrame (columns m) (filter (λ r, is_aggregate m r) (rows m)).

Definition iso_frame (m : DataFrame num) : DataFrame num :=
  mkDataFrame (columns m ++ ["iso3"])
    (with_iso3 m <$> filter (λ r, ¬ is_aggregate m r) (rows m)).

(** The rows that line 32 keeps, and the rows it drops. *)
Definition kept_rows (m : DataFrame num) : list (list (cell num)) :=
  filter (λ r, ¬ is_na (iso3_of m r)) (filter (λ r, ¬ is_aggregate m r) (rows m)).

Definition dropped_rows (m : DataFrame num) : list (list (cell num)) :=
  filter (λ r, is_na (iso3_of m r)) (filter (λ r, ¬ is_aggregate m r) (rows m)).

Definition country_frame (m : DataFrame num) : DataFrame num :=
  mkDataFrame (columns m ++ ["iso3"]) (finish m <$> kept_rows m).

(** ** The converter with the arguments of line 29 *)

(** [cc.convert(names, to='ISO3')] on one entry.  [match_name] is the
    reference list of the converter: the ISO3 code of the country an
    entry names, if it names one.  An entry without a match is filled
    with the converter's [not_found] value, which the call on line 29
    leaves at its default, the string ["not found"]. *)
Definition not_found_default : string := "not found".

Definition cc_convert (match_name : cell num → option string) v : cell num :=
  match match_name v with
  | Some code => CStr code
  | None => CStr not_found_default
  end.

(** ** [load_data] (plot.py, lines 8-13) and the script around it *)

(** [pd.read_excel(xlsx, sheet_name)] on a parsed workbook. *)
Definition read_excel (xlsx : gmap string (DataFrame num)) (sheet_name : string) : M loc :=
  match xlsx !! sheet_name with
  | Some d => new d
  | None => raise (ValueError ("Worksheet named '" +:+ sheet_name +:+ "' not found"))
  end.

Definition load_data (file : gmap string (DataFrame num)) : M (loc * loc) :=
  signals_df ← read_excel file "MAU Signals";
  devices_df ← read_excel file "MAU Devices";
  mret (signals_df, devices_df).

(** Lines 41-47: the references the script holds once a file is
    uploaded ([None] while no file is). *)
Definition script (uploaded_file : option (gmap string (DataFrame num)))
    : M (option (loc * loc * (loc * loc))) :=
  match uploaded_file with
  | Some file =>
      '(signals_df, devices_df) ← load_data file;
      signals ← preprocess_data signals_df;
      devices ← preprocess_data devices_df;
      mret (Some (signals, devices))
  | None => mret None
  end.

End Frames.

(** ** Tables the shaper accepts *)

(** Every row has one cell per column, as in every pandas frame. *)
Definition rectangular {num} (df : DataFrame num) : Prop :=
  Forall (λ r, length r = length (columns df)) (rows df).

(** The column labels with which [preprocess_data] returns. *)
Definition shapeable {num} (df : DataFrame num) : bool :=
  if bool_decide (2 < length (columns df)) then
    bool_decide ("Country" ∈ columns df) && negb (bool_decide ("Value" ∈ columns df))
  else
    match columns df with
    | [c0; c1] => bool_decide (c0 = "Country") && negb (bool_decide (c1 = "Country"))
    | _ => false
    end.

(** The two shapes of the reshaped frame. *)
Inductive reshaped {num} (df : DataFrame num) : DataFrame num → Prop :=
  | reshaped_wide i :
      2 < length (columns df) →
      get_loc (columns df) "Country" = Some i →
      reshaped df (mkDataFrame ["Country"; "Month"; "Value"]
                     (melt_rows i 0 "Country" (columns df) (rows df)))
  | reshaped_narrow c1 :
      columns df = ["Country"; c1] →
      reshaped df (mkDataFrame ["Country"; "Value"; "Month"]
                     ((λ r, r ++ [CStr c1]) <$> rows df)).

(** The columns that [melt] turns into records. *)
Definition period_columns {num} (df : DataFrame num) : list string :=
  filter (λ label, label ≠ "Country") (columns df).

(** ** A stand-in for the libraries, to run the model *)

Module Demo.

(** Numbers are integers, printed and parsed in decimal. *)
Definition str_of_Z (z : Z) : string := NilZero.string_of_int (Z.to_int z).
Definition Z_of_str (s : string) : option Z := Z.of_int <$> NilZero.int_of_string s.

(** A reference list with three countries. *)
Definition match_name (v : cell Z) : option string :=
  match v with
  | CStr "USA" | CStr "United States" => Some "USA"
  | CStr "France" => Some "FRA"
  | CStr "Germany" => Some "DEU"
  | _ => None
  end.

Definition convert : cell Z → cell Z := cc_convert match_name.

Definition Shaper : DataFrame Z → result (DataFrame Z * DataFrame Z) :=
  Shaper str_of_Z Z_of_str convert.

End Demo.

(** The sheets of the examples. *)
Definition sheet_jan_feb {num} : DataFrame num :=
  mkDataFrame ["Country"; "Jan"; "Feb"]
    [[CStr "USA"; CStr "1,000"; CStr "1,100"];
     [CStr "Global"; CStr "5,000"; CStr "5,200"]].

Definition sheet_march {num} : DataFrame num :=
  mkDataFrame ["Country"; "March"] [[CStr "Unknownland"; CStr "500"]].





(** ** What a call makes of the rows of the table *)

Section TableRows.
Context {num : Type}.
Variable str_of_num : num → string.
Variable to_numeric : string → option num.
Variable convert : cell num → cell num.

(** The rows of the table that lines 24-32 send to the aggregate frame,
    and the rows they let through to the country-level frame. *)
Definition aggregate_table_rows (df : DataFrame num) : list (list (cell num)) :=
  filter (λ r, isin aggregate_labels (field (columns df) "Country" r)) (rows df).

Definition kept_table_rows (df : DataFrame num) : list (list (cell num)) :=
  filter (λ r, ¬ isin aggregate_labels (field (columns df) "Country" r)
               ∧ ¬ is_na (convert (field (columns df) "Country" r))) (rows df).

(** The records that the country-level frame and the aggregate frame
    hold for the row [r] of the table and its period column [label],
    when the table has more than two columns. *)
Definition country_record (df : DataFrame num) (label : string) (r : list (cell num))
    : list (cell num) :=
  [field (columns df) "Country" r; CStr label;
   coerce_value str_of_num to_numeric (field (columns df) label r);
   convert (field (columns df) "Country" r)].

Definition aggregate_record (df : DataFrame num) (label : string) (r : list (cell num))
    : list (cell num) :=
  [field (columns df) "Country" r; CStr label; field (columns df) label r].


End TableRows.

(** ** The page (plot.py, lines 39-138) *)

#[global] Instance cell_eq_dec {num} `{EqDecision num} : EqDecision (cell num).
Proof. solve_decision. Defined.

(** What the script puts on the page, in the order of the calls.  The
    texts are the script's without their pictograms; a chart carries
    the frame it is drawn from, a widget the options it offers. *)
Inductive element (num : Type) :=
  | Title (text : string)
  | FileUploader
  | SidebarHeader (text : string)
  | Radio (options : list string)
  | Selectbox (options : list (cell num)) (index : nat)
  | Multiselect (options default : list (cell num))
  | Info (text : string)
  | InfoOnlyMonth (selected_month : cell num)
  | Header (text : string)
  | PageHeader (data_type : string) (selected_month : cell num)
  | Subheader (text : string)
  | Choropleth (data_frame : DataFrame num)
  | Bar (data_frame : DataFrame num)
  | Line (data_frame : DataFrame num)
  | Dataframe (data : DataFrame num)
  | Markdown.
Arguments Title {num} text.
Arguments FileUploader {num}.
Arguments SidebarHeader {num} text.
Arguments Radio {num} options.
Arguments Selectbox {num} options index.
Arguments Multiselect {num} options default.
Arguments Info {num} text.
Arguments InfoOnlyMonth {num} selected_month.
Arguments Header {num} text.
Arguments PageHeader {num} data_type selected_month.
Arguments Subheader {num} text.
Arguments Choropleth {num} data_frame.
Arguments Bar {num} data_frame.
Arguments Line {num} data_frame.
Arguments Dataframe {num} data.
Arguments Markdown {num}.

(** The state of the widgets when the script runs: the data type of
    the radio button, and the choices made in the month box and in the
    country box, [None] while the user has made none and the widget
    returns its default. *)
Record session (num : Type) := mkSession {
  data_type : string;
  month_pick : option (cell num);
  countries_pick : option (list (cell num))
}.
Arguments mkSession {num} data_type month_pick countries_pick.
Arguments data_type {num} s.
Arguments month_pick {num} s.
Arguments countries_pick {num} s.

Section Page.
Context {num : Type} `{EqDecision num}.
Variable str_of_num : num → string.
Variable to_numeric : string → option num.
Variable convert : cell num → cell num.

(** [df.nlargest(n, column)] and [df.sort_values(column,
    ascending=False)] of pandas, which order numbers. *)
Variable nlargest : nat → string → DataFrame num → result (DataFrame num).
Variable sort_values : string → DataFrame num → result (DataFrame num).

(** [Series.unique()]: the values in the order of their first
    appearance. *)
Fixpoint unique (l : list (cell num)) : list (cell num) :=
  match l with
  | [] => []
  | v :: l' => v :: filter (λ x, x ≠ v) (unique l')
  end.

(** [Series.isin(values)] on one entry, for values of any kind. *)
Definition isin_values (values : list (cell num)) (v : cell num) : bool :=
  bool_decide (v ∈ values).

(** [df.empty]. *)
Definition empty (d : DataFrame num) : bool :=
  match rows d, columns d with
  | [], _ | _, [] => true
  | _, _ => false
  end.

(** [values[i]] on an array. *)
Definition index_array (values : list (cell num)) (i : nat) : result (cell num) :=
  match values !! i with Some v => Ok v | None => Raise IndexError end.

(** The value a select box returns: the user's choice, or else the
    option at [index]. *)
Definition selectbox (options : list (cell num)) (index : nat)
    (pick : option (cell num)) : result (cell num) :=
  match pick with Some v => Ok v | None => index_array options index end.

Definition multiselect (default : list (cell num))
    (pick : option (list (cell num))) : list (cell num) :=
  match pick with Some vs => vs | None => default end.

(** A chart of plotly express reads the columns it is given by name. *)
Definition px (keys : list string) (d : DataFrame num) : result (DataFrame num) :=
  if bool_decide (Forall (λ key, key ∈ columns d) keys) then Ok d
  else Raise (ValueError "not the name of a column in data_frame").

(** Lines 49-135, on the four frames of lines 46-47. *)
Definition render (s : session num)
    (signals_melted signals_global devices_melted devices_global : DataFrame num)
    : result (list (element num)) :=
  let df := if decide (data_type s = "MAU Signals") then signals_melted
            else devices_melted in
  let global_df := if decide (data_type s = "MAU Signals") then signals_global
                   else devices_global in
  month ← getitem df "Month";
  let months := unique month in
  '(selected_month, month_elements) ←
    (if bool_decide (1 < length months) then
       selected_month ← selectbox months (length months - 1) (month_pick s);
       mret (selected_month, [Selectbox months (length months - 1)])
     else
       selected_month ← index_array months 0;
       mret (selected_month, [InfoOnlyMonth selected_month]));
  fig_map ← px ["iso3"; "Value"; "Country"] df;
  top_10 ← nlargest 10 "Value" df;
  fig_bar ← px ["Value"; "Country"] top_10;
  trend_elements ←
    (if bool_decide (1 < length months) then
       country ← getitem df "Country";
       let countries := unique country in
       let selected_countries := multiselect (take 5 countries) (countries_pick s) in
       country' ← getitem df "Country";
       let trend_data := select df (isin_values selected_countries <$> country') in
       fig_trend ← px ["Month"; "Value"; "Country"] trend_data;
       mret [Header "Trends Over Time";
             Multiselect countries (take 5 countries);
             Line fig_trend]
     else
       mret [Info "Trend analysis is not available for single-month data."]);
  raw ← sort_values "Value" df;
  global_elements ←
    (if negb (empty global_df) then
       global_trend ←
         (if bool_decide (1 < length months) then
            fig_global ← px ["Month"; "Value"; "Country"] global_df;
            mret [Line fig_global]
          else
            mret [Info ("Trend analysis for Global/International data is not "
                        +:+ "available for single-month data.")]);
       global_raw ← sort_values "Value" global_df;
       mret (global_trend
             ++ [Subheader "Global and International Raw Data"; Dataframe global_raw])
     else
       mret [Info "No Global or International data available in the uploaded file."]);
  mret ([SidebarHeader "Controls"; Radio ["MAU Signals"; "MAU Devices"]]
        ++ month_elements
        ++ [PageHeader (data_type s) selected_month;
            Subheader "Global Distribution"; Choropleth fig_map;
            Subheader "Top 10 Countries"; Bar fig_bar]
        ++ trend_elements
        ++ [Header "Raw Data (Excluding Global/International)"; Dataframe raw;
            Header "Global and International Data Analysis"]
        ++ global_elements).

(** The whole script: lines 39-47 and the page. *)
Definition app (uploaded_file : option (gmap string (DataFrame num))) (s : session num)
    : M (list (element num)) :=
  frames ← script str_of_num to_numeric convert uploaded_file;
  match frames with
  | Some ((signals_melted, signals_global), (devices_melted, devices_global)) =>
      sm ← deref signals_melted;
      sg ← deref signals_global;
      dm ← deref devices_melted;
      dg ← deref devices_global;
      page ← lift (render s sm sg dm dg);
      mret ([Title "Population Changes Dashboard"; FileUploader] ++ page)
  | None =>
      mret [Title "Population Changes Dashboard"; FileUploader;
            Info "Upload an Excel file to get started!"; Markdown]
  end.

End Page.


(** ** A stand-in for the ordering functions of pandas *)

Module DemoPage.

(** Numbers come before everything else, the larger first. *)
Definition cell_ge (v w : cell Z) : Prop :=
  match v, w with
  | CNum a, CNum b => (b ≤ a)%Z
  | _, CNum _ => False
  | _, _ => True
  end.

#[global] Instance cell_ge_dec : RelDecision cell_ge.
Proof. intros [s|a|] [t|b|]; simpl; apply _. Defined.

Definition row_ge (i : nat) (r1 r2 : list (cell Z)) : Prop :=
  cell_ge (cell_at i r1) (cell_at i r2).

#[global] Instance row_ge_dec i : RelDecision (row_ge i).
Proof. intros r1 r2. unfold row_ge. apply _. Defined.

Definition sort_values (key : string) (d : DataFrame Z) : result (DataFrame Z) :=
  match get_loc (columns d) key with
  | Some i => Ok (mkDataFrame (columns d) (merge_sort (row_ge i) (rows d)))
  | None => Raise (KeyError key)
  end.

Definition nlargest (n : nat) (key : string) (d : DataFrame Z) : result (DataFrame Z) :=
  d' ← sort_values key d;
  Ok (mkDataFrame (columns d') (take n (rows d'))).

Definition render := render nlargest sort_values.

Definition app :=
  app Demo.str_of_Z Demo.Z_of_str Demo.convert nlargest sort_values.

(** A workbook with the two sheets of the examples, and one whose
    first sheet has an aggregate row alone. *)
Definition workbook : gmap string (DataFrame Z) :=
  {[ "MAU Signals" := sheet_jan_feb; "MAU Devices" := sheet_march ]}.



(** The frames of lines 46-47 for the sheets of the examples. *)
Definition jan_feb_melted : DataFrame Z :=
  mkDataFrame ["Country"; "Month"; "Value"; "iso3"]
    [[CStr "USA"; CStr "Jan"; CNum 1000%Z; CStr "USA"];
     [CStr "USA"; CStr "Feb"; CNum 1100%Z; CStr "USA"]].

Definition jan_feb_global : DataFrame Z :=
  mkDataFrame ["Country"; "Month"; "Value"]
    [[CStr "Global"; CStr "Jan"; CStr "5,000"];
     [CStr "Global"; CStr "Feb"; CStr "5,200"]].

Definition march_melted : DataFrame Z :=
  mkDataFrame ["Country"; "Value"; "Month"; "iso3"]
    [[CStr "Unknownland"; CNum 500%Z; CStr "March"; CStr "not found"]].

Definition march_global : DataFrame Z :=
  mkDataFrame ["Country"; "Value"; "Month"] [].

(** The first of them with the larger value first. *)
Definition jan_feb_sorted : DataFrame Z :=
  mkDataFrame ["Country"; "Month"; "Value"; "iso3"]
    [[CStr "USA"; CStr "Feb"; CNum 1100%Z; CStr "USA"];
     [CStr "USA"; CStr "Jan"; CNum 1000%Z; CStr "USA"]].

End DemoPage.

(** * Properties *)

Section Running.
Context {num : Type}.
Implicit Types (df d m : DataFrame num) (v x : cell num) (r : list (cell num)).
Implicit Types (h : heap num) (l : loc) (cols : list string) (key : string).

(** ** Running the heap operations *)


Lemma bind_run {A B} (m : M A) (f : A → M B) h :
  (m ≫= f) h = match m h with Ok (a, h') => f a h' | Raise e => Raise e end.
Proof. reflexivity. Qed.

Lemma deref_run h (l : loc) d :
  h !! l = Some d → deref l h = Ok (d, h).
Proof. intros H. unfold deref. by rewrite H. Qed.

Lemma df_columns_run h l d :
  h !! l = Some d → df_columns l h = Ok (columns d, h).
Proof. intros H. unfold df_columns. by rewrite bind_run, (deref_run _ _ _ H). Qed.

Lemma df_getitem_run h l d key :
  h !! l = Some d →
  df_getitem l key h = match getitem d key with Ok vs => Ok (vs, h) | Raise e => Raise e end.
Proof. intros H. unfold df_getitem. by rewrite bind_run, (deref_run _ _ _ H). Qed.

Lemma df_setitem_run h l d key vals :
  h !! l = Some d →
  df_setitem l key vals h =
    match setitem d key vals with Ok d' => Ok (tt, <[l:=d']> h) | Raise e => Raise e end.
Proof.
  intros H. unfold df_setitem. rewrite bind_run, (deref_run _ _ _ H), bind_run.
  unfold lift. by destruct (setitem d key vals).
Qed.

Lemma df_setitem_scalar_run h l d key v :
  h !! l = Some d →
  df_setitem_scalar l key v h =
    match setitem d key (replicate (length (rows d)) v) with
    | Ok d' => Ok (tt, <[l:=d']> h)
    | Raise e => Raise e
    end.
Proof.
  intros H. unfold df_setitem_scalar. rewrite bind_run, (deref_run _ _ _ H), bind_run.
  unfold lift. by destruct (setitem d key _).
Qed.

Lemma df_select_run h l d mask :
  h !! l = Some d → df_select l mask h = Ok (length h, h ++ [select d mask]).
Proof. intros H. unfold df_select. by rewrite bind_run, (deref_run _ _ _ H). Qed.

Lemma df_dropna_run h l d key :
  h !! l = Some d →
  df_dropna l key h =
    match dropna d key with Ok d' => Ok (length h, h ++ [d']) | Raise e => Raise e end.
Proof.
  intros H. unfold df_dropna. rewrite bind_run, (deref_run _ _ _ H), bind_run.
  unfold lift. by destruct (dropna d key).
Qed.

Lemma df_rename_run h l d old new_label :
  h !! l = Some d → df_rename l old new_label h = Ok (length h, h ++ [rename d old new_label]).
Proof. intros H. unfold df_rename. by rewrite bind_run, (deref_run _ _ _ H). Qed.

Lemma df_melt_run h l d id_var var_name value_name :
  h !! l = Some d →
  df_melt l id_var var_name value_name h =
    match melt d id_var var_name value_name with
    | Ok d' => Ok (length h, h ++ [d'])
    | Raise e => Raise e
    end.
Proof.
  intros H. unfold df_melt. rewrite bind_run, (deref_run _ _ _ H), bind_run.
  unfold lift. by destruct (melt d _ _ _).
Qed.

(** A reference that was just allocated, and references allocated before. *)
Lemma lookup_new h d : (h ++ [d]) !! length h = Some d.
Proof. by rewrite list_lookup_middle. Qed.

Lemma lookup_old h d l d0 : h !! l = Some d0 → (h ++ [d]) !! l = Some d0.
Proof. intros H. by apply lookup_app_l_Some. Qed.

Lemma insert_new h d d' : <[length h:=d']> (h ++ [d]) = h ++ [d'].
Proof.
  rewrite insert_app_r_alt by lia. by rewrite Nat.sub_diag.
Qed.


(** ** Columns, fields and masks *)

Lemma get_loc_Some cols key i :
  get_loc cols key = Some i → cols !! i = Some key.
Proof.
  unfold get_loc. intros H. apply fmap_Some in H as [[j y] [H ->]].
  apply list_find_Some in H as (H & -> & _). done.
Qed.

Lemma get_loc_lt cols key i : get_loc cols key = Some i → i < length cols.
Proof. intros H. eapply lookup_lt_Some, get_loc_Some, H. Qed.

Lemma get_loc_None cols key : get_loc cols key = None ↔ key ∉ cols.
Proof.
  unfold get_loc. rewrite fmap_None, list_find_None, Forall_forall.
  split.
  - intros H Hin. by apply (H key).
  - intros H y Hy ->. done.
Qed.

Lemma get_loc_elem_of cols key : key ∈ cols → is_Some (get_loc cols key).
Proof.
  intros H. destruct (get_loc cols key) eqn:E; [by eexists|].
  by apply get_loc_None in E.
Qed.

Lemma get_loc_app_l cols cols' key i :
  get_loc cols key = Some i → get_loc (cols ++ cols') key = Some i.
Proof.
  unfold get_loc. intros H. apply fmap_Some in H as [[j y] [H ->]].
  by rewrite (list_find_app_l _ _ _ _ _ H).
Qed.

Lemma get_loc_app_new cols key :
  key ∉ cols → get_loc (cols ++ [key]) key = Some (length cols).
Proof.
  intros H. unfold get_loc. apply get_loc_None in H. unfold get_loc in H.
  apply fmap_None in H.
  rewrite list_find_app_r by done. simpl.
  rewrite decide_True by done. done.
Qed.

Lemma mask_rows_fmap {A} (f : A → bool) (l : list A) :
  mask_rows l (f <$> l) = filter (λ a, f a) l.
Proof.
  induction l as [|a l IH]; [done|]. simpl.
  rewrite filter_cons. destruct (f a); simpl; [f_equal|]; apply IH.
Qed.

Lemma mask_rows_fmap_negb {A} (f : A → bool) (l : list A) :
  mask_rows l (negb <$> (f <$> l)) = filter (λ a, ¬ f a) l.
Proof.
  induction l as [|a l IH]; [done|]. simpl.
  rewrite filter_cons. destruct (f a); simpl; [|f_equal]; apply IH.
Qed.

Lemma cell_at_app_l i r x : i < length r → cell_at i (r ++ [x]) = cell_at i r.
Proof. intros H. unfold cell_at. by rewrite lookup_app_l. Qed.

Lemma cell_at_app_new r x : cell_at (length r) (r ++ [x]) = x.
Proof. unfold cell_at. by rewrite list_lookup_middle. Qed.

Lemma cell_at_insert_eq i r x : i < length r → cell_at i (<[i:=x]> r) = x.
Proof. intros H. unfold cell_at. by rewrite list_lookup_insert_eq. Qed.

Lemma cell_at_insert_ne i j r x : i ≠ j → cell_at j (<[i:=x]> r) = cell_at j r.
Proof. intros H. unfold cell_at. by rewrite list_lookup_insert_ne. Qed.

(** Reading a field after writing one, in a row with one cell per column. *)
Lemma field_set_field_eq cols key x r :
  length r = length cols →
  field (set_columns cols key) key (set_field cols key x r) = x.
Proof.
  intros Hlen. unfold field, set_field, set_columns.
  destruct (get_loc cols key) as [i|] eqn:E.
  - rewrite E. apply cell_at_insert_eq. rewrite Hlen. by eapply get_loc_lt.
  - apply get_loc_None in E. rewrite get_loc_app_new by done.
    rewrite <- Hlen. apply cell_at_app_new.
Qed.

Lemma field_set_field_ne cols key key' x r :
  length r = length cols → key ≠ key' → key' ∈ cols →
  field (set_columns cols key) key' (set_field cols key x r) = field cols key' r.
Proof.
  intros Hlen Hne Hin. unfold field, set_field, set_columns.
  destruct (get_loc_elem_of _ _ Hin) as [j Hj].
  destruct (get_loc cols key) as [i|] eqn:E.
  - rewrite Hj. apply cell_at_insert_ne. intros ->.
    apply get_loc_Some in E, Hj. congruence.
  - rewrite (get_loc_app_l _ _ _ _ Hj), Hj. apply cell_at_app_l.
    rewrite Hlen. by eapply get_loc_lt.
Qed.

Lemma length_set_field cols key x r :
  length r = length cols → length (set_field cols key x r) = length (set_columns cols key).
Proof.
  intros H. unfold set_field, set_columns. destruct (get_loc cols key).
  - by rewrite length_insert.
  - rewrite !length_app. simpl. lia.
Qed.

Lemma getitem_Ok df key :
  key ∈ columns df → getitem df key = Ok (field (columns df) key <$> rows df).
Proof.
  intros H. destruct (get_loc_elem_of _ _ H) as [i Hi]. unfold getitem, field.
  by rewrite Hi.
Qed.

Lemma getitem_Raise df key :
  key ∉ columns df → getitem df key = Raise (KeyError key).
Proof. intros H. apply get_loc_None in H. unfold getitem. by rewrite H. Qed.

Lemma setitem_fmap cols (rs : list (list (cell num))) key (f : list (cell num) → cell num) :
  setitem (mkDataFrame cols rs) key (f <$> rs) =
    Ok (mkDataFrame (set_columns cols key) ((λ r, set_field cols key (f r) r) <$> rs)).
Proof.
  unfold setitem. simpl. rewrite bool_decide_eq_true_2 by by rewrite length_fmap.
  do 2 f_equal. rewrite zip_with_fmap_r. apply zip_with_diag.
Qed.

Lemma setitem_replicate cols (rs : list (list (cell num))) key x :
  setitem (mkDataFrame cols rs) key (replicate (length rs) x) =
    Ok (mkDataFrame (set_columns cols key) ((λ r, set_field cols key x r) <$> rs)).
Proof.
  rewrite <- (setitem_fmap cols rs key (λ _, x)). f_equal.
  induction rs as [|a l IH]; simpl; [done|]. f_equal. apply IH.
Qed.

Lemma dropna_Ok df key :
  key ∈ columns df →
  dropna df key =
    Ok (mkDataFrame (columns df) (filter (λ r, ¬ is_na (field (columns df) key r)) (rows df))).
Proof.
  intros H. destruct (get_loc_elem_of _ _ H) as [i Hi]. unfold dropna, field.
  by rewrite Hi.
Qed.

Lemma filter_fmap_ext {A B} (f : A → B) (P : B → Prop) (Q : A → Prop)
    `{∀ b, Decision (P b)} `{∀ a, Decision (Q a)} (l : list A) :
  Forall (λ a, P (f a) ↔ Q a) l → filter P (f <$> l) = f <$> filter Q l.
Proof.
  induction 1 as [|a l Ha Hl IH]; [done|].
  rewrite fmap_cons, !filter_cons, IH.
  destruct (decide (P (f a))), (decide (Q a)); tauto || done.
Qed.


(** ** A call of [preprocess_data] on any heap *)

Variable str_of_num : num → string.
Variable to_numeric : string → option num.
Variable convert : cell num → cell num.

Local Abbreviation shaper_trace' := (shaper_trace str_of_num to_numeric convert).
Local Abbreviation country_frame' := (country_frame str_of_num to_numeric convert).
Local Abbreviation Shaper' := (Shaper str_of_num to_numeric convert).
Local Abbreviation preprocess_data' := (preprocess_data str_of_num to_numeric convert).
Local Abbreviation script' := (script str_of_num to_numeric convert).
Local Abbreviation finish' := (finish str_of_num to_numeric convert).
Local Abbreviation kept_rows' := (kept_rows convert).
Local Abbreviation dropped_rows' := (dropped_rows convert).

Lemma rbind_Ok {A B} (a : A) (f : A → result B) : (Ok a ≫= f) = f a.
Proof. reflexivity. Qed.

Lemma item_run (cols : list string) i h :
  item (num:=num) cols i h = match cols !! i with Some c => Ok (c, h) | None => Raise IndexError end.
Proof. unfold item. by destruct (cols !! i). Qed.

Lemma preprocess_data_run h l df :
  h !! l = Some df →
  preprocess_data str_of_num to_numeric convert l h =
    match shaper_trace str_of_num to_numeric convert df with
    | Ok (m, g, w, f) => Ok ((length h + 3, length h + 1), h ++ [m; g; w; f])
    | Raise e => Raise e
    end.
Proof.
  intros Hl. unfold preprocess_data, shaper_trace.
  rewrite bind_run, (df_columns_run _ _ _ Hl), bind_run.
  assert (Hre : (if bool_decide (2 < length (columns df))
    then df_melt l "Country" "Month" "Value"
    else
     item (columns df) 1
     ≫= λ c1 : string,
          df_rename l c1 "Value"
          ≫= λ df_melted : loc,
               df_columns l
               ≫= λ cols' : list string,
                    item cols' 1
                    ≫= λ c1' : string,
                         df_setitem_scalar df_melted "Month" (CStr c1')
                         ≫= λ _ : (), mret df_melted) h
     = match reshape df with Ok m => Ok (length h, h ++ [m]) | Raise e => Raise e end).
  { unfold reshape. case_bool_decide.
    - by rewrite (df_melt_run _ _ _ _ _ _ Hl).
    - rewrite bind_run, item_run. destruct (columns df !! 1) as [c1|] eqn:Hc1; [|done].
      rewrite bind_run, (df_rename_run _ _ _ _ _ Hl), bind_run.
      rewrite (df_columns_run _ _ df) by by apply lookup_old.
      rewrite bind_run, item_run, Hc1, bind_run.
      rewrite (df_setitem_scalar_run _ _ _ _ _ (lookup_new _ _)).
      simpl. destruct (setitem _ _ _); [|done].
      by rewrite insert_new. }
  rewrite Hre. clear Hre.
  destruct (reshape df) as [m|e]; [|done]. rewrite rbind_Ok. cbv beta iota.
  assert (Hm : (h ++ [m]) !! length h = Some m) by apply lookup_new.
  rewrite bind_run, (df_getitem_run _ _ _ _ Hm).
  destruct (getitem m "Country") as [country|e] eqn:Hcountry; [|done].
  rewrite rbind_Ok. cbv beta iota zeta.
  rewrite bind_run, (df_select_run _ _ _ _ Hm).
  set (g := select m _).
  assert (Hm' : ((h ++ [m]) ++ [g]) !! length h = Some m) by by apply lookup_old.
  cbv beta iota. rewrite bind_run, (df_getitem_run _ _ _ _ Hm'), Hcountry. cbv beta iota.
  rewrite bind_run, (df_select_run _ _ _ _ Hm').
  set (rest := select m _). set (h2 := (h ++ [m]) ++ [g]). cbv beta iota.
  rewrite bind_run, (df_getitem_run _ _ _ _ (lookup_new h2 rest)).
  destruct (getitem rest "Country") as [country'|e]; [|done].
  rewrite rbind_Ok. cbv beta iota.
  rewrite bind_run, (df_setitem_run _ _ _ _ _ (lookup_new h2 rest)).
  destruct (setitem rest "iso3" _) as [w|e]; [|done].
  rewrite rbind_Ok. cbv beta iota.
  rewrite insert_new.
  rewrite bind_run, (df_dropna_run _ _ _ _ (lookup_new h2 w)).
  destruct (dropna w "iso3") as [kept|e]; [|done].
  rewrite rbind_Ok. cbv beta iota.
  set (h3 := h2 ++ [w]).
  rewrite bind_run, (df_getitem_run _ _ _ _ (lookup_new h3 kept)).
  destruct (getitem kept "Value") as [value|e]; [|done].
  rewrite rbind_Ok. cbv beta iota.
  rewrite bind_run, (df_setitem_run _ _ _ _ _ (lookup_new h3 kept)).
  destruct (setitem kept "Value" _) as [f|e]; [|done].
  rewrite rbind_Ok. cbv beta iota.
  rewrite insert_new. subst h3 h2.
  unfold mret, M_ret, result_ret. rewrite !length_app. simpl.
  rewrite <- !app_assoc. simpl. do 3 f_equal; lia.
Qed.

(** ** The frames in closed form *)

Lemma set_columns_new cols key : key ∉ cols → set_columns cols key = cols ++ [key].
Proof. intros H. apply get_loc_None in H. unfold set_columns. by rewrite H. Qed.

Lemma set_columns_old cols key : key ∈ cols → set_columns cols key = cols.
Proof.
  intros H. destruct (get_loc_elem_of _ _ H) as [i Hi]. unfold set_columns. by rewrite Hi.
Qed.

Lemma shaper_trace_spec df m :
  reshape df = Ok m →
  "Country" ∈ columns m → "Value" ∈ columns m → "iso3" ∉ columns m →
  rectangular m →
  shaper_trace' df = Ok (m, aggregate_frame m, iso_frame convert m, country_frame' m).
Proof.
  intros Hre HC HV Hiso Hrect. unfold shaper_trace.
  rewrite Hre, rbind_Ok, (getitem_Ok m) by done. rewrite rbind_Ok. cbv zeta.
  rewrite <- !list_fmap_compose.
  assert (Hg : select m ((isin aggregate_labels ∘ field (columns m) "Country") <$> rows m)
               = aggregate_frame m).
  { unfold select, aggregate_frame. f_equal. apply mask_rows_fmap. }
  rewrite Hg. clear Hg.
  set (rest := select m _).
  assert (Hrest : rest = mkDataFrame (columns m) (filter (λ r, ¬ is_aggregate m r) (rows m))).
  { unfold rest, select. f_equal.
    rewrite (list_fmap_compose (isin aggregate_labels ∘ field (columns m) "Country") negb).
    apply (mask_rows_fmap_negb (isin aggregate_labels ∘ field (columns m) "Country")). }
  rewrite Hrest. clear rest Hrest.
  set (rest_rows := filter (λ r, ¬ is_aggregate m r) (rows m)).
  assert (Hrr : Forall (λ r, length r = length (columns m)) rest_rows).
  { apply Forall_forall. intros r Hr. apply list_elem_of_filter in Hr as [_ Hr].
    unfold rectangular in Hrect. rewrite Forall_forall in Hrect. by apply Hrect. }
  rewrite getitem_Ok by done. rewrite rbind_Ok. simpl columns. simpl rows.
  rewrite <- list_fmap_compose.
  rewrite (setitem_fmap (columns m) rest_rows "iso3"
             (convert ∘ field (columns m) "Country")).
  rewrite rbind_Ok. simpl columns. simpl rows.
  rewrite set_columns_new by done.
  rewrite dropna_Ok by (simpl; set_solver). rewrite rbind_Ok. simpl columns. simpl rows.
  rewrite (filter_fmap_ext _ _ (λ r, ¬ is_na (iso3_of convert m r))).
  2:{ eapply Forall_impl; [exact Hrr|]. intros r Hr. simpl.
      rewrite <- (set_columns_new (columns m) "iso3") by done.
      by rewrite field_set_field_eq. }
  fold (kept_rows convert m).
  rewrite getitem_Ok by (simpl; set_solver). rewrite rbind_Ok. simpl columns. simpl rows.
  rewrite <- list_fmap_compose.
  rewrite (setitem_fmap _ _ "Value"
            (coerce_value str_of_num to_numeric ∘ field (columns m ++ ["iso3"]) "Value")).
  rewrite rbind_Ok.
  rewrite set_columns_old by set_solver.
  unfold mret, result_ret. do 2 f_equal.
  unfold country_frame. f_equal.
  rewrite <- list_fmap_compose. apply Forall_fmap_ext.
  apply Forall_forall. intros r Hr. simpl. unfold finish. f_equal. f_equal.
  unfold with_iso3.
  rewrite <- (set_columns_new (columns m) "iso3") by done.
  apply field_set_field_ne; [|done|done].
  apply list_elem_of_filter in Hr as [_ Hr].
  rewrite Forall_forall in Hrr. by apply Hrr.
Qed.


(** *** The reshaped frame *)


Lemma elem_of_melt_rows i j id_var cols (rs : list (list (cell num))) r' :
  r' ∈ melt_rows i j id_var cols rs ↔
  ∃ k label r, cols !! k = Some label ∧ label ≠ id_var ∧ r ∈ rs ∧
               r' = [cell_at i r; CStr label; cell_at (j + k) r].
Proof.
  revert j. induction cols as [|c cols IH]; intros j; simpl.
  - split; [by intros ?%elem_of_nil|]. by intros (k & ? & ? & ? & _).
  - rewrite elem_of_app, IH. split.
    + intros [H|(k & label & r & Hk & Hne & Hr & ->)].
      * destruct (decide (c = id_var)); [by apply elem_of_nil in H|].
        apply list_elem_of_fmap in H as (r & -> & Hr).
        exists 0, c, r. by rewrite Nat.add_0_r.
      * exists (S k), label, r. by rewrite Nat.add_succ_r.
    + intros (k & label & r & Hk & Hne & Hr & ->). destruct k as [|k]; simpl in Hk.
      * left. injection Hk as ->. rewrite decide_False by done.
        apply list_elem_of_fmap. exists r. by rewrite Nat.add_0_r.
      * right. exists k, label, r. by rewrite Nat.add_succ_r.
Qed.

Lemma melt_Ok df i :
  "Value" ∉ columns df → get_loc (columns df) "Country" = Some i →
  melt df "Country" "Month" "Value" =
    Ok (mkDataFrame ["Country"; "Month"; "Value"]
          (melt_rows i 0 "Country" (columns df) (rows df))).
Proof.
  intros HV Hi. unfold melt. rewrite bool_decide_eq_false_2 by done. by rewrite Hi.
Qed.

Lemma reshape_wide df :
  2 < length (columns df) → reshape df = melt df "Country" "Month" "Value".
Proof. intros H. unfold reshape. by rewrite bool_decide_eq_true_2. Qed.

Lemma reshape_narrow df c1 :
  columns df = ["Country"; c1] → c1 ≠ "Country" →
  reshape df =
    Ok (mkDataFrame ["Country"; "Value"; "Month"] ((λ r, r ++ [CStr c1]) <$> rows df)).
Proof.
  intros Hcols Hne. unfold reshape. rewrite Hcols. simpl.
  unfold rename. rewrite Hcols. simpl.
  rewrite decide_False by done. rewrite decide_True by done.
  by rewrite setitem_replicate.
Qed.

Lemma shapeable_reshape df :
  shapeable df = true → ∃ m, reshape df = Ok m ∧ reshaped df m.
Proof.
  unfold shapeable. case_bool_decide as Hlen.
  - intros [HC HV]%andb_true_iff.
    apply bool_decide_eq_true in HC. apply negb_true_iff, bool_decide_eq_false in HV.
    destruct (get_loc_elem_of _ _ HC) as [i Hi].
    eexists. rewrite reshape_wide, (melt_Ok _ i) by done. split; [done|].
    by constructor.
  - destruct (columns df) as [|c0 [|c1 [|]]] eqn:Hcols; try done.
    intros [->%bool_decide_eq_true Hne]%andb_true_iff.
    apply negb_true_iff, bool_decide_eq_false in Hne.
    eexists. rewrite (reshape_narrow _ c1) by done. split; [done|].
    by constructor.
Qed.

Lemma reshaped_columns df m :
  reshaped df m →
  "Country" ∈ columns m ∧ "Value" ∈ columns m ∧ "Month" ∈ columns m ∧ "iso3" ∉ columns m.
Proof. destruct 1; simpl; repeat split; by apply (bool_decide_unpack _). Qed.

Lemma reshaped_rectangular df m : rectangular df → reshaped df m → rectangular m.
Proof.
  intros Hrect [i _ _|c1 Hcols]; unfold rectangular in *; simpl.
  - apply Forall_forall. intros r' Hr'.
    by apply elem_of_melt_rows in Hr' as (k & label & r & _ & _ & _ & ->).
  - apply Forall_fmap. eapply Forall_impl; [exact Hrect|].
    intros r Hr. simpl. rewrite length_app, Hr, Hcols. done.
Qed.

Lemma Shaper_trace df :
  Shaper' df = '(m, g, w, f) ← shaper_trace' df; Ok (f, g).
Proof.
  unfold Shaper. rewrite (preprocess_data_run [df] 0 df) by done.
  by destruct (shaper_trace' df) as [[[[m g] w] f]|e].
Qed.

(** The results of a call on a table the shaper accepts. *)
Lemma Shaper_shapeable df :
  rectangular df → shapeable df = true →
  ∃ m, reshape df = Ok m ∧ reshaped df m ∧
       Shaper' df = Ok (country_frame' m, aggregate_frame m).
Proof.
  intros Hrect Hs. destruct (shapeable_reshape _ Hs) as (m & Hre & Hm).
  exists m. split; [done|]. split; [done|].
  destruct (reshaped_columns _ _ Hm) as (HC & HV & _ & Hiso).
  rewrite Shaper_trace, (shaper_trace_spec df m) by eauto using reshaped_rectangular.
  done.
Qed.


(** ** The claims of the specification *)

(** A call on any heap, against the results for the table alone. *)
Lemma preprocess_data_Shaper h l df :
  h !! l = Some df →
  match Shaper' df with
  | Ok (c, g) =>
      ∃ m w, preprocess_data' l h = Ok ((length h + 3, length h + 1), h ++ [m; g; w; c])
  | Raise e => preprocess_data' l h = Raise e
  end.
Proof.
  intros Hl. rewrite Shaper_trace, (preprocess_data_run h l df Hl).
  destruct (shaper_trace' df) as [[[[m g] w] f]|e]; simpl; eauto.
Qed.

Lemma lookup_result_country h (m g w c : DataFrame num) :
  (h ++ [m; g; w; c]) !! (length h + 3) = Some c.
Proof. by rewrite lookup_app_r, Nat.add_comm, Nat.add_sub by lia. Qed.

Lemma lookup_result_aggregate h (m g w c : DataFrame num) :
  (h ++ [m; g; w; c]) !! (length h + 1) = Some g.
Proof. by rewrite lookup_app_r, Nat.add_comm, Nat.add_sub by lia. Qed.

(** C7.  A call of [preprocess_data] on a reference to the table [df]
    either raises, on every heap the same exception, or returns two
    references whose frames are the ones [Shaper df] gives, whatever
    the heap.  The call changes no frame that was on the heap, the
    table among them, and a second call on the resulting heap returns
    the same two frames again and leaves the first results intact. *)
Theorem preprocess_data_repeatable h l df :
  h !! l = Some df →
  (∃ e, preprocess_data str_of_num to_numeric convert l h = Raise e
        ∧ Shaper str_of_num to_numeric convert df = Raise e) ∨
  (∃ lc lg h' c g,
      preprocess_data str_of_num to_numeric convert l h = Ok ((lc, lg), h') ∧
      Shaper str_of_num to_numeric convert df = Ok (c, g) ∧
      h' !! lc = Some c ∧ h' !! lg = Some g ∧
      (∀ k d, h !! k = Some d → h' !! k = Some d) ∧
      ∃ lc2 lg2 h'',
        preprocess_data str_of_num to_numeric convert l h' = Ok ((lc2, lg2), h'') ∧
        h'' !! lc2 = Some c ∧ h'' !! lg2 = Some g ∧
        h'' !! lc = Some c ∧ h'' !! lg = Some g ∧ h'' !! l = Some df).
Proof.
  intros Hl. pose proof (preprocess_data_Shaper h l df Hl) as Hrun.
  destruct (Shaper' df) as [[c g]|e] eqn:HS; [right|left; eauto].
  destruct Hrun as (m & w & Hrun).
  set (h' := h ++ [m; g; w; c]) in *.
  assert (Hext : ∀ k d, h !! k = Some d → h' !! k = Some d).
  { intros k d Hk. by apply lookup_app_l_Some. }
  exists (length h + 3), (length h + 1), h', c, g.
  split; [done|]. split; [done|].
  split; [apply lookup_result_country|]. split; [apply lookup_result_aggregate|].
  split; [done|].
  pose proof (preprocess_data_Shaper h' l df (Hext _ _ Hl)) as Hrun2.
  rewrite HS in Hrun2. destruct Hrun2 as (m2 & w2 & Hrun2).
  exists (length h' + 3), (length h' + 1), (h' ++ [m2; g; w2; c]).
  split; [done|].
  split; [apply lookup_result_country|]. split; [apply lookup_result_aggregate|].
  split; [|split]; apply lookup_app_l_Some.
  - apply lookup_result_country.
  - apply lookup_result_aggregate.
  - by apply Hext.
Qed.



(** C9.  [load_data] returns two references, the first to the table of
    the sheet "MAU Signals" and the second to the table of the sheet
    "MAU Devices".  If one of the two sheets is absent the call raises,
    nothing is returned, and the script around it, which has no
    handler, ends with the same exception. *)
Theorem load_data_sheets (file : gmap string (DataFrame num)) h :
  match file !! "MAU Signals", file !! "MAU Devices" with
  | Some signals, Some devices =>
      load_data file h = Ok ((length h, S (length h)), h ++ [signals; devices])
  | _, _ => ∃ e, load_data file h = Raise e ∧ script' (Some file) h = Raise e
  end.
Proof.
  unfold script, load_data. rewrite !bind_run. unfold read_excel.
  destruct (file !! "MAU Signals") as [signals|]; [|by eexists].
  unfold new at 1. rewrite bind_run.
  destruct (file !! "MAU Devices") as [devices|]; [|by eexists].
  unfold new. unfold mret, M_ret. rewrite length_app, <- app_assoc. simpl.
  do 3 f_equal. lia.
Qed.

(** *** Fields of the finished rows *)

Section finished.
Variables (m : DataFrame num) (r : list (cell num)).
Hypothesis Hlen : length r = length (columns m).
Hypothesis Hiso : "iso3" ∉ columns m.

Lemma length_with_iso3 :
  length (with_iso3 convert m r) = length (columns m ++ ["iso3"]).
Proof.
  unfold with_iso3. rewrite <- (set_columns_new (columns m) "iso3") by done.
  by apply length_set_field.
Qed.


Lemma field_finish_iso3 :
  "Value" ∈ columns m →
  field (columns m ++ ["iso3"]) "iso3" (finish' m r) = iso3_of convert m r.
Proof.
  intros HV. unfold finish.
  rewrite <- (set_columns_old (columns m ++ ["iso3"]) "Value") at 1 by set_solver.
  rewrite field_set_field_ne; [|apply length_with_iso3|done|set_solver].
  unfold with_iso3. rewrite <- (set_columns_new (columns m) "iso3") by done.
  by apply field_set_field_eq.
Qed.

Lemma field_finish_other key :
  "Value" ∈ columns m → key ∈ columns m → key ≠ "Value" →
  field (columns m ++ ["iso3"]) key (finish' m r) = field (columns m) key r.
Proof.
  intros HV Hkey Hne. unfold finish.
  rewrite <- (set_columns_old (columns m ++ ["iso3"]) "Value") at 1 by set_solver.
  rewrite field_set_field_ne; [|apply length_with_iso3|done|set_solver].
  unfold with_iso3. rewrite <- (set_columns_new (columns m) "iso3") by done.
  apply field_set_field_ne; [done| |done]. intros <-. done.
Qed.

End finished.



Lemma elem_of_kept_rows m r :
  r ∈ kept_rows' m ↔ r ∈ rows m ∧ ¬ is_aggregate m r ∧ ¬ is_na (iso3_of convert m r).
Proof. unfold kept_rows. rewrite !list_elem_of_filter. tauto. Qed.


Lemma elem_of_country_frame m r' :
  r' ∈ rows (country_frame' m) ↔ ∃ r, r' = finish' m r ∧ r ∈ kept_rows' m.
Proof. unfold country_frame. simpl. apply list_elem_of_fmap. Qed.




Lemma reshaped_row_length df m r :
  rectangular df → reshaped df m → r ∈ rows m → length r = length (columns m).
Proof.
  intros Hrect Hm Hr. pose proof (reshaped_rectangular _ _ Hrect Hm) as H.
  unfold rectangular in H. rewrite Forall_forall in H. by apply H.
Qed.



Lemma filter_all {A} (P : A → Prop) `{∀ a, Decision (P a)} (l : list A) :
  Forall P l → filter P l = l.
Proof.
  induction 1 as [|a l Ha Hl IH]; [done|].
  rewrite filter_cons, decide_True by done. by rewrite IH.
Qed.

Lemma length_period_columns df :
  NoDup (columns df) → "Country" ∈ columns df →
  length (period_columns df) = length (columns df) - 1.
Proof.
  unfold period_columns. induction (columns df) as [|label cols IH].
  - by intros _ ?%elem_of_nil.
  - intros [Hnotin Hnodup]%NoDup_cons Hin. rewrite filter_cons.
    destruct (decide (label = "Country")) as [->|Hne].
    + rewrite decide_False by (intros H; by apply H).
      rewrite filter_all; [simpl; lia|].
      apply Forall_forall. by intros label Hl ->.
    + rewrite decide_True by done. apply elem_of_cons in Hin as [Hin|Hin]; [done|].
      simpl. rewrite IH by done.
      apply list_elem_of_lookup in Hin as [i Hi]. apply lookup_lt_Some in Hi. lia.
Qed.




(** [str.replace(',', '')] deletes the commas and nothing else. *)
Lemma str_replace_comma_chars (s : string) :
  String.list_ascii_of_string (str_replace comma EmptyString s)
  = filter (λ a, a ≠ comma) (String.list_ascii_of_string s).
Proof.
  induction s as [|a s IH]; [done|]. simpl. rewrite filter_cons.
  destruct (decide (a = comma)) as [->|Hne].
  - rewrite decide_False by (intros H; by apply H). done.
  - rewrite decide_True by done. simpl. by rewrite IH.
Qed.



(** *** When a call returns *)

Lemma Shaper_Ok_shapeable df c g : Shaper' df = Ok (c, g) → shapeable df = true.
Proof.
  rewrite Shaper_trace. unfold shaper_trace.
  destruct (reshape df) as [m|e] eqn:Hre; [|done]. rewrite rbind_Ok.
  destruct (getitem m "Country") as [country|e] eqn:Hcountry; [|done]. intros _.
  assert (HC : "Country" ∈ columns m).
  { destruct (decide ("Country" ∈ columns m)) as [|Hn]; [done|].
    by rewrite getitem_Raise in Hcountry. }
  clear Hcountry. unfold reshape in Hre. unfold shapeable.
  case_bool_decide as Hlen.
  - unfold melt in Hre. case_bool_decide as HV; [done|].
    destruct (get_loc (columns df) "Country") as [i|] eqn:Hi; [|done].
    apply get_loc_Some, list_elem_of_lookup_2 in Hi.
    by rewrite bool_decide_eq_true_2.
  - destruct (columns df) as [|c0 [|c1 [|]]] eqn:Hcols; simpl in *; try done; [|lia].
    unfold rename in Hre. rewrite Hcols in Hre. simpl in Hre.
    rewrite setitem_replicate in Hre. injection Hre as <-. simpl in HC.
    destruct (decide (c1 = c1)) as [_|]; [|done].
    assert (Hin : "Country" ∈ [if decide (c0 = c1) then "Value" else c0; "Value"; "Month"]).
    { unfold set_columns in HC. destruct (get_loc _ "Month"); [|done].
      apply elem_of_cons in HC as [HC|HC]; [rewrite HC; by left|].
      right. apply elem_of_cons in HC as [HC|HC]; [rewrite HC; by left|].
      by apply elem_of_nil in HC. }
    apply elem_of_cons in Hin as [Hin|Hin].
    + destruct (decide (c0 = c1)) as [->|Hne]; [done|]. subst c0.
      rewrite bool_decide_eq_true_2 by done. rewrite bool_decide_eq_false_2; [done|].
      by intros ->.
    + exfalso. revert Hin. by apply (bool_decide_unpack _).
Qed.


(** What line 32 guarantees whatever the converter: the codes left in
    the country-level frame are the converter's and none is missing. *)
Lemma country_rows_have_code df :
  rectangular df → shapeable df = true →
  ∃ m c g,
    reshape df = Ok m ∧ reshaped df m ∧ Shaper' df = Ok (c, g) ∧
    ∀ r', r' ∈ rows c →
      field (columns c) "iso3" r' = convert (field (columns c) "Country" r')
      ∧ ¬ is_na (field (columns c) "iso3" r').
Proof.
  intros Hrect Hs.
  destruct (Shaper_shapeable df Hrect Hs) as (m & Hre & Hm & HS).
  destruct (reshaped_columns _ _ Hm) as (HC & HV & HM & Hiso).
  exists m, (country_frame' m), (aggregate_frame m).
  split; [done|]. split; [done|]. split; [done|].
  intros r' (r & -> & Hr)%elem_of_country_frame.
  apply elem_of_kept_rows in Hr as (Hr & _ & Hna).
  pose proof (reshaped_row_length df m r Hrect Hm Hr) as Hlen.
  change (columns (country_frame' m)) with (columns m ++ ["iso3"]).
  rewrite field_finish_iso3, field_finish_other by done. done.
Qed.

End Running.

(** ** The converter of line 29 *)

Section Converter.
Context {num : Type}.
Variable str_of_num : num → string.
Variable to_numeric : string → option num.
Variable match_name : cell num → option string.

Lemma cc_convert_not_na (v : cell num) : is_na (cc_convert match_name v) = false.
Proof. unfold cc_convert. by destruct (match_name v). Qed.

(** With the converter as the script calls it, line 32 drops no row. *)
Lemma cc_convert_drops_nothing (m : DataFrame num) :
  dropped_rows (cc_convert match_name) m = [].
Proof.
  unfold dropped_rows. generalize (filter (λ r, ¬ is_aggregate m r) (rows m)).
  intros rs. induction rs as [|r rs IH]; [done|].
  rewrite filter_cons, decide_False; [exact IH|].
  unfold iso3_of. rewrite cc_convert_not_na. by intros [].
Qed.

(** So every reshaped row that is no aggregate reaches the country-level
    frame, whether the reference list knows its country or not. *)
Lemma cc_convert_keeps_every_row (m : DataFrame num) :
  kept_rows (cc_convert match_name) m = filter (λ r, ¬ is_aggregate m r) (rows m).
Proof.
  unfold kept_rows. apply filter_all, Forall_forall. intros r _.
  unfold iso3_of. rewrite cc_convert_not_na. by intros [].
Qed.

(** C1, at the sheet of the specification's example: the row of a
    country that the reference list does not know is returned in the
    country-level frame, its code the filler ["not found"], where the
    claim has it dropped and the frame empty.  The call raises
    nothing. *)
Theorem unresolved_country_kept :
  match_name (CStr "Unknownland") = None →
  Shaper str_of_num to_numeric (cc_convert match_name) sheet_march
  = Ok (mkDataFrame ["Country"; "Value"; "Month"; "iso3"]
          [[CStr "Unknownland"; to_numeric_coerce to_numeric "500";
            CStr "March"; CStr "not found"]],
        mkDataFrame ["Country"; "Value"; "Month"] []).
Proof.
  intros H. vm_compute. rewrite H. reflexivity.
Qed.

End Converter.

Section Examples.
Context {num : Type}.
Variable str_of_num : num → string.
Variable to_numeric : string → option num.
Variable convert : cell num → cell num.


End Examples.

(** ** The claims on the sheets of the examples *)

Example isin_is_case_sensitive :
  isin (num:=Z) aggregate_labels (CStr "Global") = true ∧
  isin (num:=Z) aggregate_labels (CStr "global") = false ∧
  isin (num:=Z) aggregate_labels (CStr "Global ") = false ∧
  isin (num:=Z) aggregate_labels (CStr "Internationale") = false.
Proof. by vm_compute. Qed.

Example melt_goes_column_by_column :
  reshape (sheet_jan_feb (num:=Z))
  = Ok (mkDataFrame ["Country"; "Month"; "Value"]
          [[CStr "USA"; CStr "Jan"; CStr "1,000"];
           [CStr "Global"; CStr "Jan"; CStr "5,000"];
           [CStr "USA"; CStr "Feb"; CStr "1,100"];
           [CStr "Global"; CStr "Feb"; CStr "5,200"]]).
Proof. reflexivity. Qed.

Lemma sheet_jan_feb_rectangular : rectangular (sheet_jan_feb (num:=Z)).
Proof. repeat constructor. Qed.

Lemma sheet_march_rectangular : rectangular (sheet_march (num:=Z)).
Proof. repeat constructor. Qed.

Lemma unresolved_country_kept_witness :
  Demo.match_name (CStr "Unknownland") = None ∧
  Demo.Shaper sheet_march
  = Ok (mkDataFrame ["Country"; "Value"; "Month"; "iso3"]
          [[CStr "Unknownland"; CNum 500%Z; CStr "March"; CStr "not found"]],
        mkDataFrame ["Country"; "Value"; "Month"] []).
Proof.
  split; [reflexivity|].
  apply (unresolved_country_kept Demo.str_of_Z Demo.Z_of_str Demo.match_name).
  reflexivity.
Defined.








Lemma preprocess_data_repeatable_witness :
  [sheet_jan_feb (num:=Z)] !! 0 = Some sheet_jan_feb ∧
  ((∃ e, preprocess_data Demo.str_of_Z Demo.Z_of_str Demo.convert 0 [sheet_jan_feb]
         = Raise e ∧ Demo.Shaper sheet_jan_feb = Raise e) ∨
   (∃ lc lg h' c g,
      preprocess_data Demo.str_of_Z Demo.Z_of_str Demo.convert 0 [sheet_jan_feb]
      = Ok ((lc, lg), h') ∧
      Demo.Shaper sheet_jan_feb = Ok (c, g) ∧
      h' !! lc = Some c ∧ h' !! lg = Some g ∧
      (∀ k d, [sheet_jan_feb (num:=Z)] !! k = Some d → h' !! k = Some d) ∧
      ∃ lc2 lg2 h'',
        preprocess_data Demo.str_of_Z Demo.Z_of_str Demo.convert 0 h'
        = Ok ((lc2, lg2), h'') ∧
        h'' !! lc2 = Some c ∧ h'' !! lg2 = Some g ∧
        h'' !! lc = Some c ∧ h'' !! lg = Some g ∧ h'' !! 0 = Some sheet_jan_feb)).
Proof.
  split; [reflexivity|].
  apply (preprocess_data_repeatable Demo.str_of_Z Demo.Z_of_str Demo.convert
           [sheet_jan_feb] 0 sheet_jan_feb).
  reflexivity.
Defined.



(** * More of the script *)

Section TableTheory.
Context {num : Type}.
Implicit Types (df d m : DataFrame num) (v x : cell num) (r : list (cell num)).
Implicit Types (h : heap num) (l : loc) (cols : list string) (key : string).
Variable str_of_num : num → string.
Variable to_numeric : string → option num.
Variable convert : cell num → cell num.

Local Abbreviation Shaper' := (Shaper str_of_num to_numeric convert).
Local Abbreviation shaper_trace' := (shaper_trace str_of_num to_numeric convert).
Local Abbreviation country_frame' := (country_frame str_of_num to_numeric convert).
Local Abbreviation finish' := (finish str_of_num to_numeric convert).
Local Abbreviation country_record' := (country_record str_of_num to_numeric convert).
Local Abbreviation kept_table_rows' := (kept_table_rows convert).

(** ** The exception of a refused table *)




(** ** The records in terms of the table *)

Lemma get_loc_NoDup cols k label :
  NoDup cols → cols !! k = Some label → get_loc cols label = Some k.
Proof.
  intros Hnd Hk.
  destruct (get_loc_elem_of cols label) as [k' Hk'].
  { by eapply list_elem_of_lookup_2. }
  rewrite Hk'. f_equal. apply get_loc_Some in Hk'. by eapply NoDup_lookup.
Qed.

Lemma filter_bind {A B} (P : B → Prop) `{∀ b, Decision (P b)}
    (f : A → list B) (l : list A) :
  filter P (l ≫= f) = l ≫= (λ a, filter P (f a)).
Proof.
  induction l as [|a l IH]; [done|]. by rewrite !bind_cons, filter_app, IH.
Qed.

Lemma fmap_bind {A B C} (g : B → C) (f : A → list B) (l : list A) :
  g <$> (l ≫= f) = l ≫= (λ a, g <$> f a).
Proof.
  induction l as [|a l IH]; [done|]. by rewrite !bind_cons, fmap_app, IH.
Qed.

Lemma bind_ext_in {A B} (f g : A → list B) (l : list A) :
  (∀ a, a ∈ l → f a = g a) → l ≫= f = l ≫= g.
Proof.
  induction l as [|a l IH]; intros Hfg; [done|]. rewrite !bind_cons.
  rewrite Hfg by (apply elem_of_cons; by left). rewrite IH; [done|].
  intros b Hb. apply Hfg. apply elem_of_cons. by right.
Qed.

(** [melt] in terms of labels instead of positions. *)
Lemma melt_rows_fields allcols i j id_var cols (rs : list (list (cell num))) :
  (∀ k label, cols !! k = Some label → get_loc allcols label = Some (j + k)) →
  melt_rows i j id_var cols rs =
    filter (λ label, label ≠ id_var) cols
    ≫= (λ label, (λ r, [cell_at i r; CStr label; field allcols label r]) <$> rs).
Proof.
  revert j. induction cols as [|c cols IH]; intros j Hpos; [done|].
  simpl. rewrite filter_cons. rewrite (IH (S j)).
  2:{ intros k label Hk. rewrite (Hpos (S k) label Hk). f_equal. lia. }
  destruct (decide (c = id_var)) as [->|Hne].
  - rewrite decide_False by (intros Hn; by apply Hn). done.
  - rewrite decide_True by done. rewrite bind_cons. f_equal.
    apply list_fmap_ext. intros n r _. unfold field.
    rewrite (Hpos 0 c eq_refl), Nat.add_0_r. done.
Qed.

Lemma reshaped_wide_rows df i :
  NoDup (columns df) → get_loc (columns df) "Country" = Some i →
  melt_rows i 0 "Country" (columns df) (rows df)
  = period_columns df ≫= (λ label, aggregate_record df label <$> rows df).
Proof.
  intros Hnd Hi. rewrite (melt_rows_fields (columns df)).
  2:{ intros k label Hk. by apply get_loc_NoDup. }
  unfold period_columns. apply bind_ext_in. intros label _.
  apply list_fmap_ext. intros n r _. unfold aggregate_record, field. by rewrite Hi.
Qed.


Lemma wide_aggregate_rows df i :
  NoDup (columns df) → get_loc (columns df) "Country" = Some i →
  rows (aggregate_frame
          (mkDataFrame ["Country"; "Month"; "Value"]
             (melt_rows i 0 "Country" (columns df) (rows df))))
  = period_columns df ≫= (λ label, aggregate_record df label <$> aggregate_table_rows df).
Proof.
  intros Hnd Hi. unfold aggregate_frame. simpl. rewrite reshaped_wide_rows by done.
  rewrite filter_bind. apply bind_ext_in. intros label _.
  apply filter_fmap_ext, Forall_forall. by intros r _.
Qed.

Lemma wide_country_rows df i :
  NoDup (columns df) → get_loc (columns df) "Country" = Some i →
  rows (country_frame'
          (mkDataFrame ["Country"; "Month"; "Value"]
             (melt_rows i 0 "Country" (columns df) (rows df))))
  = period_columns df ≫= (λ label, country_record' df label <$> kept_table_rows' df).
Proof.
  intros Hnd Hi. unfold country_frame, kept_rows. simpl.
  rewrite reshaped_wide_rows by done.
  rewrite list_filter_filter, filter_bind, fmap_bind.
  apply bind_ext_in. intros label _.
  rewrite (filter_fmap_ext _ _
             (λ r, ¬ isin aggregate_labels (field (columns df) "Country" r)
                   ∧ ¬ is_na (convert (field (columns df) "Country" r)))).
  2:{ apply Forall_forall. intros r _. simpl. unfold is_aggregate, iso3_of. simpl.
      change (field ["Country"; "Month"; "Value"] "Country" (aggregate_record df label r))
        with (field (columns df) "Country" r). tauto. }
  rewrite <- list_fmap_compose. done.
Qed.




Lemma rectangular_two_columns df c1 r :
  rectangular df → columns df = ["Country"; c1] → r ∈ rows df → ∃ a b, r = [a; b].
Proof.
  intros Hrect Hcols Hr. unfold rectangular in Hrect. rewrite Forall_forall in Hrect.
  pose proof (Hrect r Hr) as Hlen. rewrite Hcols in Hlen.
  destruct r as [|a [|b [|]]]; try done. by exists a, b.
Qed.



(** ** The frames returned are frames *)



(** ** A call on the frames a call returned *)

Lemma Shaper_value_label d :
  2 < length (columns d) → "Value" ∈ columns d →
  Shaper' d = Raise (ValueError "value_name cannot match an element in the DataFrame columns").
Proof.
  intros Hlen HV. rewrite Shaper_trace. unfold shaper_trace, reshape.
  rewrite bool_decide_eq_true_2 by done. unfold melt.
  by rewrite bool_decide_eq_true_2.
Qed.

(** X5.  [preprocess_data] does not apply to what it returns: called
    on its country-level frame or on its aggregate frame, which have
    more than two columns and a column Value, it raises the
    [ValueError] of [melt]. *)
Theorem returned_frames_refused df c g :
  rectangular df → Shaper' df = Ok (c, g) →
  Shaper' c = Raise (ValueError "value_name cannot match an element in the DataFrame columns")
  ∧ Shaper' g = Raise (ValueError "value_name cannot match an element in the DataFrame columns").
Proof.
  intros Hrect HS.
  pose proof (Shaper_Ok_shapeable str_of_num to_numeric convert df c g HS) as Hs.
  destruct (Shaper_shapeable str_of_num to_numeric convert df Hrect Hs)
    as (m & Hre & Hm & HS').
  rewrite HS in HS'. injection HS' as -> ->.
  split; apply Shaper_value_label; destruct Hm; simpl; try lia;
    by apply (bool_decide_unpack _).
Qed.


(** ** The script around the two calls *)

Local Abbreviation script' := (script str_of_num to_numeric convert).

Lemma load_data_run (file : gmap string (DataFrame num)) h sig dev :
  file !! "MAU Signals" = Some sig → file !! "MAU Devices" = Some dev →
  load_data file h = Ok ((length h, S (length h)), h ++ [sig; dev]).
Proof.
  intros Hsig Hdev. unfold load_data. rewrite !bind_run. unfold read_excel.
  rewrite Hsig. unfold new at 1. rewrite bind_run, Hdev. unfold new, mret, M_ret.
  rewrite length_app, <- app_assoc. simpl. do 3 f_equal. lia.
Qed.

Lemma script_run (file : gmap string (DataFrame num)) h sig dev :
  file !! "MAU Signals" = Some sig → file !! "MAU Devices" = Some dev →
  script' (Some file) h =
    match shaper_trace' sig with
    | Raise e => Raise e
    | Ok (m1, g1, w1, c1) =>
        match shaper_trace' dev with
        | Raise e => Raise e
        | Ok (m2, g2, w2, c2) =>
            Ok (Some ((length h + 5, length h + 3), (length h + 9, length h + 7)),
                h ++ [sig; dev; m1; g1; w1; c1; m2; g2; w2; c2])
        end
    end.
Proof.
  intros Hsig Hdev. unfold script.
  rewrite bind_run, (load_data_run file h sig dev Hsig Hdev).
  set (h0 := h ++ [sig; dev]).
  assert (H0 : h0 !! length h = Some sig) by (unfold h0; by rewrite list_lookup_middle).
  assert (H1 : h0 !! S (length h) = Some dev).
  { unfold h0. rewrite lookup_app_r by lia. by replace (S (length h) - length h) with 1 by lia. }
  rewrite bind_run, (preprocess_data_run str_of_num to_numeric convert h0 _ sig H0).
  destruct (shaper_trace' sig) as [[[[m1 g1] w1] c1]|e]; [|done].
  rewrite bind_run.
  rewrite (preprocess_data_run str_of_num to_numeric convert _ _ dev
             (lookup_app_l_Some _ _ _ _ H1)).
  destruct (shaper_trace' dev) as [[[[m2 g2] w2] c2]|e]; [|done].
  unfold mret, M_ret, h0. rewrite !length_app. simpl.
  rewrite <- !app_assoc. simpl. do 4 f_equal; f_equal; lia.
Qed.


Lemma lookup_app_plus h (fs : list (DataFrame num)) k :
  (h ++ fs) !! (length h + k) = fs !! k.
Proof. rewrite lookup_app_r by lia. f_equal. lia. Qed.

(** X6.  Lines 44-47 on a workbook with the two sheets: if shaping the
    first sheet raises, or else shaping the second, the script ends
    with that exception; otherwise it holds four distinct references,
    to the frames [Shaper] gives for the sheet MAU Signals and for
    the sheet MAU Devices, and no frame that was on the heap has
    changed: the second call leaves the results of the first alone. *)
Theorem script_frames (file : gmap string (DataFrame num)) h sig dev :
  file !! "MAU Signals" = Some sig → file !! "MAU Devices" = Some dev →
  match Shaper' sig with
  | Raise e => script' (Some file) h = Raise e
  | Ok (sm, sg) =>
      match Shaper' dev with
      | Raise e => script' (Some file) h = Raise e
      | Ok (dm, dg) =>
          ∃ lsm lsg ldm ldg h',
            script' (Some file) h = Ok (Some ((lsm, lsg), (ldm, ldg)), h') ∧
            h' !! lsm = Some sm ∧ h' !! lsg = Some sg ∧
            h' !! ldm = Some dm ∧ h' !! ldg = Some dg ∧
            NoDup [lsm; lsg; ldm; ldg] ∧
            (∀ k d, h !! k = Some d → h' !! k = Some d)
      end
  end.
Proof.
  intros Hsig Hdev. rewrite !Shaper_trace, (script_run file h sig dev Hsig Hdev).
  destruct (shaper_trace' sig) as [[[[m1 g1] w1] c1]|e]; [|done].
  destruct (shaper_trace' dev) as [[[[m2 g2] w2] c2]|e]; [|done].
  simpl. eexists _, _, _, _, _. split; [done|].
  rewrite !lookup_app_plus. simpl.
  split; [done|]. split; [done|]. split; [done|]. split; [done|]. split.
  - repeat (apply NoDup_cons; split; [rewrite ?elem_of_cons, elem_of_nil; lia|]).
    apply NoDup_nil_2.
  - intros k d Hk. by apply lookup_app_l_Some.
Qed.

End TableTheory.

Section UniqueTheory.
Context {num : Type} `{EqDecision num}.
Implicit Types (v x : cell num) (l : list (cell num)).

Lemma elem_of_unique l x : x ∈ unique l ↔ x ∈ l.
Proof.
  induction l as [|v l IH]; [done|]. simpl.
  rewrite !elem_of_cons, list_elem_of_filter, IH.
  destruct (decide (x = v)); tauto.
Qed.

Lemma filter_none {A} (P : A → Prop) `{∀ a, Decision (P a)} (l : list A) :
  (∀ a, a ∈ l → ¬ P a) → filter P l = [].
Proof.
  induction l as [|a l IH]; intros Hl; [done|].
  rewrite filter_cons, decide_False by (apply Hl, elem_of_cons; by left).
  apply IH. intros b Hb. apply Hl, elem_of_cons. by right.
Qed.

Lemma unique_app l l' :
  unique (l ++ l') = unique l ++ filter (λ x, x ∉ l) (unique l').
Proof.
  induction l as [|v l IH]; simpl.
  - symmetry. apply filter_all, Forall_forall. intros x _. apply not_elem_of_nil.
  - rewrite IH, filter_app, list_filter_filter. do 2 f_equal.
    apply list_filter_iff. intros x. rewrite not_elem_of_cons. tauto.
Qed.

Lemma unique_app_subseteq l l' :
  (∀ x, x ∈ l' → x ∈ l) → unique (l ++ l') = unique l.
Proof.
  intros Hsub. rewrite unique_app, filter_none; [apply app_nil_r|].
  intros x Hx Hn. rewrite elem_of_unique in Hx. by apply Hn, Hsub.
Qed.

Lemma unique_replicate k v : 0 < k → unique (replicate k v) = [v].
Proof.
  induction k as [|k IH]; [lia|]. intros _. simpl.
  destruct k as [|k]; [done|]. rewrite IH by lia.
  rewrite filter_cons, decide_False by (intros Hn; by apply Hn). done.
Qed.

(** Blocks of equal values, one block for each of distinct values. *)
Lemma unique_blocks k l :
  NoDup l → 0 < k → unique (l ≫= replicate k) = l.
Proof.
  intros Hnd Hk. induction Hnd as [|v l Hv Hnd IH]; [done|].
  rewrite bind_cons, unique_app, unique_replicate, IH by done. simpl. f_equal.
  apply filter_all, Forall_forall. intros x Hx Hin.
  apply elem_of_replicate in Hin as [-> _]. done.
Qed.

(** The same values block after block. *)
Lemma unique_repeated {A} (labels : list A) l :
  labels ≠ [] → unique (labels ≫= (λ _, l)) = unique l.
Proof.
  intros Hne. destruct labels as [|a labels]; [done|]. clear Hne.
  rewrite bind_cons. apply unique_app_subseteq.
  intros x (_ & Hx & _)%list_elem_of_bind. done.
Qed.

Lemma NoDup_unique l : NoDup (unique l).
Proof.
  induction l as [|v l IH]; simpl; [apply NoDup_nil_2|].
  apply NoDup_cons. split.
  - intros [Hn _]%list_elem_of_filter. by apply Hn.
  - by apply NoDup_filter.
Qed.

End UniqueTheory.

Section PageTheory.
Context {num : Type} `{EqDecision num}.
Implicit Types (df d m : DataFrame num) (v x : cell num) (r : list (cell num)).
Variable str_of_num : num → string.
Variable to_numeric : string → option num.
Variable convert : cell num → cell num.
Variable nlargest : nat → string → DataFrame num → result (DataFrame num).
Variable sort_values : string → DataFrame num → result (DataFrame num).

Local Abbreviation render' := (render nlargest sort_values).

Lemma px_Ok (keys : list string) d :
  Forall (λ key, key ∈ columns d) keys → px keys d = Ok d.
Proof. intros H'. unfold px. by rewrite bool_decide_eq_true_2. Qed.

(** [df[df[key].isin(values)]]. *)
Lemma select_isin_values d key (values : list (cell num)) :
  key ∈ columns d →
  select d (isin_values values <$> (field (columns d) key <$> rows d))
  = mkDataFrame (columns d) (filter (λ r, field (columns d) key r ∈ values) (rows d)).
Proof.
  intros Hkey. unfold select. f_equal. rewrite <- list_fmap_compose.
  rewrite (mask_rows_fmap (isin_values values ∘ field (columns d) key)).
  apply list_filter_iff. intros r. unfold isin_values. simpl.
  by rewrite bool_decide_spec.
Qed.



Lemma selectbox_last (options : list (cell num)) pick final :
  last options = Some final →
  selectbox options (length options - 1) pick
  = Ok (match pick with Some v => v | None => final end).
Proof.
  intros Hlast. unfold selectbox, index_array. destruct pick; [done|].
  rewrite last_lookup in Hlast. replace (length options - 1) with (pred (length options)) by lia.
  by rewrite Hlast.
Qed.

(** The page when the country-level frame has more than one month. *)
Lemma render_many_months (s : session num) sm sg dm dg top raw final :
  let df := if decide (data_type s = "MAU Signals") then sm else dm in
  let global_df := if decide (data_type s = "MAU Signals") then sg else dg in
  let months := unique (field (columns df) "Month" <$> rows df) in
  let countries := unique (field (columns df) "Country" <$> rows df) in
  let selected_countries := multiselect (take 5 countries) (countries_pick s) in
  Forall (λ key, key ∈ columns df) ["Month"; "Country"; "Value"; "iso3"] →
  1 < length months → last months = Some final →
  nlargest 10 "Value" df = Ok top →
  Forall (λ key, key ∈ columns top) ["Value"; "Country"] →
  sort_values "Value" df = Ok raw →
  render' s sm sg dm dg =
    global_elements ←
      (if negb (empty global_df) then
         fig_global ← px ["Month"; "Value"; "Country"] global_df;
         global_raw ← sort_values "Value" global_df;
         mret [Line fig_global;
               Subheader "Global and International Raw Data"; Dataframe global_raw]
       else
         mret [Info "No Global or International data available in the uploaded file."]);
    Ok ([SidebarHeader "Controls"; Radio ["MAU Signals"; "MAU Devices"];
         Selectbox months (length months - 1);
         PageHeader (data_type s)
           (match month_pick s with Some v => v | None => final end);
         Subheader "Global Distribution"; Choropleth df;
         Subheader "Top 10 Countries"; Bar top;
         Header "Trends Over Time";
         Multiselect countries (take 5 countries);
         Line (mkDataFrame (columns df)
                 (filter (λ r, field (columns df) "Country" r ∈ selected_countries)
                    (rows df)));
         Header "Raw Data (Excluding Global/International)"; Dataframe raw;
         Header "Global and International Data Analysis"]
        ++ global_elements).
Proof.
  intros df global_df months countries selected_countries Hcols Hmany Hlast Htop Htopcols Hraw.
  rewrite !Forall_cons in Hcols. destruct Hcols as (HM & HC & HV & Hiso & _).
  unfold render. fold df global_df.
  rewrite (getitem_Ok df "Month") by done. rewrite rbind_Ok. fold months.
  rewrite (bool_decide_eq_true_2 (1 < length months)) by done.
  rewrite (selectbox_last months _ final Hlast). rewrite !rbind_Ok.
  rewrite (px_Ok ["iso3"; "Value"; "Country"] df) by (by repeat constructor).
  rewrite rbind_Ok, Htop, rbind_Ok.
  rewrite (px_Ok ["Value"; "Country"] top) by done.
  rewrite rbind_Ok.
  rewrite (getitem_Ok df "Country") by done. rewrite !rbind_Ok. fold countries.
  fold selected_countries.
  rewrite (select_isin_values df "Country") by done.
  rewrite (px_Ok _ (mkDataFrame (columns df) _)) by (simpl; by repeat constructor).
  rewrite !rbind_Ok, Hraw, rbind_Ok.
  destruct (empty global_df); simpl; [done|].
  destruct (px _ global_df) as [fig|e]; [|done]. rewrite !rbind_Ok.
  by destruct (sort_values "Value" global_df).
Qed.


(** The page when the country-level frame has one month. *)
Lemma render_one_month (s : session num) sm sg dm dg top raw month0 :
  let df := if decide (data_type s = "MAU Signals") then sm else dm in
  let global_df := if decide (data_type s = "MAU Signals") then sg else dg in
  Forall (λ key, key ∈ columns df) ["Month"; "Country"; "Value"; "iso3"] →
  unique (field (columns df) "Month" <$> rows df) = [month0] →
  nlargest 10 "Value" df = Ok top →
  Forall (λ key, key ∈ columns top) ["Value"; "Country"] →
  sort_values "Value" df = Ok raw →
  render' s sm sg dm dg =
    global_elements ←
      (if negb (empty global_df) then
         global_raw ← sort_values "Value" global_df;
         mret [Info ("Trend analysis for Global/International data is not "
                     +:+ "available for single-month data.");
               Subheader "Global and International Raw Data"; Dataframe global_raw]
       else
         mret [Info "No Global or International data available in the uploaded file."]);
    Ok ([SidebarHeader "Controls"; Radio ["MAU Signals"; "MAU Devices"];
         InfoOnlyMonth month0;
         PageHeader (data_type s) month0;
         Subheader "Global Distribution"; Choropleth df;
         Subheader "Top 10 Countries"; Bar top;
         Info "Trend analysis is not available for single-month data.";
         Header "Raw Data (Excluding Global/International)"; Dataframe raw;
         Header "Global and International Data Analysis"]
        ++ global_elements).
Proof.
  intros df global_df Hcols Hmonths Htop Htopcols Hraw.
  rewrite !Forall_cons in Hcols. destruct Hcols as (HM & HC & HV & Hiso & _).
  unfold render. fold df global_df.
  rewrite (getitem_Ok df "Month") by done. rewrite rbind_Ok, Hmonths.
  rewrite (bool_decide_eq_false_2 (1 < length [month0])) by (simpl; lia).
  unfold index_array. simpl lookup. rewrite !rbind_Ok.
  rewrite (px_Ok ["iso3"; "Value"; "Country"] df) by (by repeat constructor).
  rewrite rbind_Ok, Htop, rbind_Ok.
  rewrite (px_Ok ["Value"; "Country"] top) by done.
  rewrite !rbind_Ok, Hraw, rbind_Ok.
  destruct (empty global_df); simpl; [done|].
  by destruct (sort_values "Value" global_df).
Qed.

(** X7.  The month chosen in the select box reaches the header of the
    page and nothing else: two runs of lines 49-135 on the same frames
    that differ in that choice alone put the same elements on the
    page, with the same frames in the charts and tables, but for the
    month in the header. *)
Theorem month_pick_changes_header_only dt p1 p2 cp sm sg dm dg els1 els2 :
  render nlargest sort_values (mkSession dt p1 cp) sm sg dm dg = Ok els1 →
  render nlargest sort_values (mkSession dt p2 cp) sm sg dm dg = Ok els2 →
  ∃ before after month1 month2,
    els1 = before ++ PageHeader dt month1 :: after ∧
    els2 = before ++ PageHeader dt month2 :: after.
Proof.
  unfold render. simpl.
  set (df := if decide (dt = "MAU Signals") then sm else dm).
  set (global_df := if decide (dt = "MAU Signals") then sg else dg).
  destruct (getitem df "Month") as [month|e]; [|done]. rewrite !rbind_Ok.
  set (months := unique month).
  intros H1 H2.
  assert (Hsel : ∃ sel1 sel2 month_elements,
    ((if bool_decide (1 < length months) then
        selectbox months (length months - 1) p1
        ≫= (λ selected_month, mret (selected_month, [Selectbox months (length months - 1)]))
      else index_array months 0
        ≫= (λ selected_month, mret (selected_month, [InfoOnlyMonth selected_month])))
     = Ok (sel1, month_elements)) ∧
    ((if bool_decide (1 < length months) then
        selectbox months (length months - 1) p2
        ≫= (λ selected_month, mret (selected_month, [Selectbox months (length months - 1)]))
      else index_array months 0
        ≫= (λ selected_month, mret (selected_month, [InfoOnlyMonth selected_month])))
     = Ok (sel2, month_elements))).
  { case_bool_decide.
    - destruct (selectbox months _ p1) as [sel1|]; [|done].
      destruct (selectbox months _ p2) as [sel2|]; [|done]. by eexists _, _, _.
    - destruct (index_array months 0) as [sel|]; [|done]. by eexists _, _, _. }
  destruct Hsel as (sel1 & sel2 & month_elements & E1 & E2).
  rewrite E1 in H1. rewrite E2 in H2. rewrite rbind_Ok in H1, H2.
  destruct (px _ df) as [fig_map|]; [|done]. rewrite rbind_Ok in H1, H2.
  destruct (nlargest 10 "Value" df) as [top|]; [|done]. rewrite rbind_Ok in H1, H2.
  destruct (px _ top) as [fig_bar|]; [|done]. rewrite rbind_Ok in H1, H2.
  match type of H1 with (?t ≫= _) = _ => destruct t as [trend_elements|] end; [|done].
  rewrite rbind_Ok in H1, H2.
  destruct (sort_values "Value" df) as [raw|]; [|done]. rewrite rbind_Ok in H1, H2.
  match type of H1 with (?t ≫= _) = _ => destruct t as [global_elements|] end; [|done].
  rewrite rbind_Ok in H1, H2. injection H1 as <-. injection H2 as <-.
  exists ([SidebarHeader "Controls"; Radio ["MAU Signals"; "MAU Devices"]] ++ month_elements).
  eexists _, sel1, sel2. rewrite <- !app_assoc. split; reflexivity.
Qed.


(** ** The columns of the frames in terms of the table *)

Local Abbreviation Shaper' := (Shaper str_of_num to_numeric convert).
Local Abbreviation kept_table_rows' := (kept_table_rows convert).
Local Abbreviation country_record' := (country_record str_of_num to_numeric convert).

Lemma fmap_const_replicate {A B} (b : B) (l : list A) :
  (λ _, b) <$> l = replicate (length l) b.
Proof. induction l as [|a l IH]; simpl; [done|]. f_equal. apply IH. Qed.

Lemma bind_nil_iff {A B C} (f : A → B → C) (labels : list A) (l : list B) :
  labels ≠ [] → (labels ≫= (λ a, f a <$> l)) = [] ↔ l = [].
Proof.
  intros Hne. split.
  - destruct labels as [|a labels]; [done|]. rewrite bind_cons.
    intros [Hl _]%app_eq_nil. by apply fmap_nil_inv in Hl.
  - intros ->. induction labels as [|a labels IH]; [done|].
    rewrite bind_cons. simpl. destruct labels; [done|]. by apply IH.
Qed.

Lemma period_columns_many (tbl : DataFrame num) :
  NoDup (columns tbl) → shapeable tbl = true → 2 < length (columns tbl) →
  1 < length (period_columns tbl).
Proof.
  intros Hnd Hs Hwide. rewrite length_period_columns; [lia|done|].
  unfold shapeable in Hs. rewrite bool_decide_eq_true_2 in Hs by done.
  apply andb_true_iff in Hs as [Hs _]. by apply bool_decide_eq_true in Hs.
Qed.

Lemma wide_frame_columns (tbl : DataFrame num) :
  rectangular tbl → NoDup (columns tbl) → shapeable tbl = true →
  2 < length (columns tbl) →
  ∃ c g,
    Shaper' tbl = Ok (c, g) ∧
    columns c = ["Country"; "Month"; "Value"; "iso3"] ∧
    columns g = ["Country"; "Month"; "Value"] ∧
    field (columns c) "Month" <$> rows c
      = (CStr <$> period_columns tbl) ≫= replicate (length (kept_table_rows' tbl)) ∧
    field (columns c) "Country" <$> rows c
      = period_columns tbl
        ≫= (λ _, field (columns tbl) "Country" <$> kept_table_rows' tbl) ∧
    (rows c = [] ↔ kept_table_rows' tbl = []) ∧
    (rows g = [] ↔ aggregate_table_rows tbl = []).
Proof.
  intros Hrect Hnd Hs Hwide.
  pose proof (period_columns_many tbl Hnd Hs Hwide) as Hmany.
  assert (Hne : period_columns tbl ≠ []) by (intros Heq; rewrite Heq in Hmany; simpl in Hmany; lia).
  destruct (Shaper_shapeable str_of_num to_numeric convert tbl Hrect Hs)
    as (m & Hre & Hm & HS).
  destruct Hm as [i _ Hi|c1 Hcols]; [|rewrite Hcols in Hwide; simpl in Hwide; lia].
  eexists _, _. split; [exact HS|]. split; [done|]. split; [done|].
  rewrite wide_country_rows, wide_aggregate_rows by done.
  change (columns (country_frame _ _ _ _)) with ["Country"; "Month"; "Value"; "iso3"].
  split; [|split; [|split]].
  - rewrite fmap_bind, list_fmap_bind. apply bind_ext_in. intros label _.
    rewrite <- list_fmap_compose. apply (fmap_const_replicate (CStr label)).
  - rewrite fmap_bind. apply bind_ext_in. intros label _.
    by rewrite <- list_fmap_compose.
  - by apply bind_nil_iff.
  - by apply bind_nil_iff.
Qed.

Lemma two_column_frame_columns (tbl : DataFrame num) c1 :
  rectangular tbl → columns tbl = ["Country"; c1] → c1 ≠ "Country" →
  ∃ c g,
    Shaper' tbl = Ok (c, g) ∧
    columns c = ["Country"; "Value"; "Month"; "iso3"] ∧
    columns g = ["Country"; "Value"; "Month"] ∧
    field (columns c) "Month" <$> rows c
      = replicate (length (kept_table_rows' tbl)) (CStr c1) ∧
    (rows c = [] ↔ kept_table_rows' tbl = []) ∧
    (rows g = [] ↔ aggregate_table_rows tbl = []).
Proof.
  intros Hrect Hcols Hne.
  assert (Hs : shapeable tbl = true).
  { unfold shapeable. rewrite Hcols.
    rewrite (bool_decide_eq_false_2 (2 < _)) by (simpl; lia).
    by rewrite bool_decide_eq_true_2, bool_decide_eq_false_2. }
  destruct (Shaper_shapeable str_of_num to_numeric convert tbl Hrect Hs)
    as (m & Hre & Hm & HS).
  rewrite (reshape_narrow tbl c1) in Hre by done. injection Hre as <-.
  assert (Hrows : ∀ r, r ∈ rows tbl → ∃ a b, r = [a; b]).
  { intros r Hr. by eapply rectangular_two_columns. }
  eexists _, _. split; [exact HS|]. split; [done|]. split; [done|].
  unfold country_frame, aggregate_frame, kept_rows. simpl.
  rewrite list_filter_filter.
  rewrite (filter_fmap_ext _ _
             (λ r, ¬ isin aggregate_labels (field (columns tbl) "Country" r)
                   ∧ ¬ is_na (convert (field (columns tbl) "Country" r)))).
  2:{ apply Forall_forall. intros r Hr. destruct (Hrows r Hr) as (a & b & ->).
      rewrite Hcols. unfold is_aggregate, iso3_of. simpl.
      change (field ["Country"; c1] "Country" [a; b]) with a.
      change (field ["Country"; "Value"; "Month"] "Country" [a; b; CStr c1]) with a.
      tauto. }
  rewrite (filter_fmap_ext _ _
             (λ r, isin aggregate_labels (field (columns tbl) "Country" r))).
  2:{ apply Forall_forall. intros r Hr. destruct (Hrows r Hr) as (a & b & ->).
      by rewrite Hcols. }
  fold (kept_table_rows' tbl). fold (aggregate_table_rows tbl).
  split; [|split].
  - rewrite <- !list_fmap_compose.
    rewrite <- (fmap_const_replicate (CStr c1) (kept_table_rows' tbl)).
    apply Forall_fmap_ext, Forall_forall.
    intros r [_ Hr]%list_elem_of_filter. destruct (Hrows r Hr) as (a & b & ->). done.
  - split; [by intros ?%fmap_nil_inv%fmap_nil_inv|by intros ->].
  - split; [by intros ?%fmap_nil_inv|by intros ->].
Qed.


Lemma NoDup_CStr (labels : list string) :
  NoDup labels → NoDup (CStr (num:=num) <$> labels).
Proof.
  induction 1 as [|label labels Hn Hnd IH]; simpl; [apply NoDup_nil_2|].
  apply NoDup_cons. split; [|done].
  intros (label' & [= ->] & Hin)%list_elem_of_fmap. done.
Qed.

Lemma empty_rows d : columns d ≠ [] → empty d = bool_decide (rows d = []).
Proof.
  intros Hc. unfold empty. destruct (rows d); [done|].
  destruct (columns d); [done|]. by rewrite bool_decide_eq_false_2.
Qed.

Lemma length_pos_ne_nil {A} (l : list A) : l ≠ [] → 0 < length l.
Proof. destruct l; [done|]. simpl. lia. Qed.

(** ** The page for a table *)

(** X8.  The page for a table with more than two columns, distinct
    labels and a country-level row.  The select box offers the labels
    of the period columns in the order of the sheet and preselects
    the last; the map and the bar chart are drawn from the whole
    country-level frame and its ten largest rows; the country box
    offers the distinct countries in the order of the sheet and
    preselects the first five; the trend chart shows the rows of the
    chosen countries.  Without aggregate rows in the table the page
    ends with the notice that there are none, else with the trend
    chart and the table of the aggregate frame. *)
Theorem page_many_months (s : session num) sm sg dm dg tbl top raw final :
  let df := if decide (data_type s = "MAU Signals") then sm else dm in
  let global_df := if decide (data_type s = "MAU Signals") then sg else dg in
  let months := CStr <$> period_columns tbl in
  let countries := unique (field (columns tbl) "Country" <$> kept_table_rows' tbl) in
  let selected_countries := multiselect (take 5 countries) (countries_pick s) in
  let front :=
    [SidebarHeader "Controls"; Radio ["MAU Signals"; "MAU Devices"];
     Selectbox months (length months - 1);
     PageHeader (data_type s)
       (match month_pick s with Some v => v | None => CStr final end);
     Subheader "Global Distribution"; Choropleth df;
     Subheader "Top 10 Countries"; Bar top;
     Header "Trends Over Time";
     Multiselect countries (take 5 countries);
     Line (mkDataFrame (columns df)
             (filter (λ r, field (columns df) "Country" r ∈ selected_countries)
                (rows df)));
     Header "Raw Data (Excluding Global/International)"; Dataframe raw;
     Header "Global and International Data Analysis"] in
  rectangular tbl → NoDup (columns tbl) → shapeable tbl = true →
  2 < length (columns tbl) →
  Shaper' tbl = Ok (df, global_df) →
  kept_table_rows' tbl ≠ [] →
  last (period_columns tbl) = Some final →
  nlargest 10 "Value" df = Ok top →
  Forall (λ key, key ∈ columns top) ["Value"; "Country"] →
  sort_values "Value" df = Ok raw →
  render' s sm sg dm dg =
    if bool_decide (aggregate_table_rows tbl = []) then
      Ok (front
          ++ [Info "No Global or International data available in the uploaded file."])
    else
      global_raw ← sort_values "Value" global_df;
      Ok (front
          ++ [Line global_df;
              Subheader "Global and International Raw Data"; Dataframe global_raw]).
Proof.
  intros df global_df months countries selected_countries front
    Hrect Hnd Hs Hwide HS Hkept Hlast Htop Htopcols Hraw.
  destruct (wide_frame_columns tbl Hrect Hnd Hs Hwide)
    as (c & g & HS' & Hc & Hg & Hmonth & Hcountry & _ & Hgrows).
  rewrite HS in HS'. injection HS' as <- <-.
  pose proof (period_columns_many tbl Hnd Hs Hwide) as Hmany.
  assert (Hmonths : unique (field (columns df) "Month" <$> rows df) = months).
  { rewrite Hmonth. apply unique_blocks.
    - apply NoDup_CStr. by apply NoDup_filter.
    - by apply length_pos_ne_nil. }
  assert (Hcountries : unique (field (columns df) "Country" <$> rows df) = countries).
  { rewrite Hcountry. apply unique_repeated.
    intros Heq. rewrite Heq in Hmany. simpl in Hmany. lia. }
  rewrite (render_many_months s sm sg dm dg top raw (CStr final)); try done.
  - fold df global_df. rewrite Hmonths, Hcountries.
    rewrite empty_rows by (by rewrite Hg). rewrite (bool_decide_ext _ _ Hgrows).
    case_bool_decide; [done|]. simpl.
    rewrite px_Ok by (rewrite Hg; by repeat constructor).
    rewrite rbind_Ok. by destruct (sort_values "Value" global_df).
  - fold df. rewrite Hc. by repeat constructor.
  - fold df. rewrite Hmonths. unfold months. rewrite length_fmap. done.
  - fold df. rewrite Hmonths. unfold months. by rewrite fmap_last, Hlast.
Qed.


(** X9.  The page for a table with the two columns Country and [c1]
    and a country-level row: no select box, the notice that data are
    available for [c1] only, [c1] in the header, the map and the bar
    chart, the notice that there is no trend analysis, the raw data,
    and for the aggregates the notice that there are none or the
    notice that there is no trend analysis and their table. *)
Theorem page_one_month (s : session num) sm sg dm dg tbl c1 top raw :
  let df := if decide (data_type s = "MAU Signals") then sm else dm in
  let global_df := if decide (data_type s = "MAU Signals") then sg else dg in
  let front :=
    [SidebarHeader "Controls"; Radio ["MAU Signals"; "MAU Devices"];
     InfoOnlyMonth (CStr c1);
     PageHeader (data_type s) (CStr c1);
     Subheader "Global Distribution"; Choropleth df;
     Subheader "Top 10 Countries"; Bar top;
     Info "Trend analysis is not available for single-month data.";
     Header "Raw Data (Excluding Global/International)"; Dataframe raw;
     Header "Global and International Data Analysis"] in
  rectangular tbl → columns tbl = ["Country"; c1] → c1 ≠ "Country" →
  Shaper' tbl = Ok (df, global_df) →
  kept_table_rows' tbl ≠ [] →
  nlargest 10 "Value" df = Ok top →
  Forall (λ key, key ∈ columns top) ["Value"; "Country"] →
  sort_values "Value" df = Ok raw →
  render' s sm sg dm dg =
    if bool_decide (aggregate_table_rows tbl = []) then
      Ok (front
          ++ [Info "No Global or International data available in the uploaded file."])
    else
      global_raw ← sort_values "Value" global_df;
      Ok (front
          ++ [Info ("Trend analysis for Global/International data is not "
                    +:+ "available for single-month data.");
              Subheader "Global and International Raw Data"; Dataframe global_raw]).
Proof.
  intros df global_df front Hrect Hcols Hne HS Hkept Htop Htopcols Hraw.
  destruct (two_column_frame_columns tbl c1 Hrect Hcols Hne)
    as (c & g & HS' & Hc & Hg & Hmonth & _ & Hgrows).
  rewrite HS in HS'. injection HS' as <- <-.
  assert (Hmonths : unique (field (columns df) "Month" <$> rows df) = [CStr c1]).
  { rewrite Hmonth. apply unique_replicate. by apply length_pos_ne_nil. }
  rewrite (render_one_month s sm sg dm dg top raw (CStr c1)); try done.
  - fold df global_df.
    rewrite empty_rows by (by rewrite Hg). rewrite (bool_decide_ext _ _ Hgrows).
    case_bool_decide; [done|]. simpl.
    by destruct (sort_values "Value" global_df).
  - fold df. rewrite Hc. by repeat constructor.
Qed.

(** ** The script on an uploaded file *)

Local Abbreviation app' :=
  (app str_of_num to_numeric convert nlargest sort_values).
Local Abbreviation shaper_trace' := (shaper_trace str_of_num to_numeric convert).





End PageTheory.

(** ** The stripping of commas *)

Lemma str_replace_without_comma (s : string) :
  comma ∉ String.list_ascii_of_string s → str_replace comma EmptyString s = s.
Proof.
  induction s as [|a s IH]; [done|]. simpl. intros Hn.
  apply not_elem_of_cons in Hn as [Hne Hn].
  rewrite decide_False by (intros Heq; by apply Hne). by rewrite IH.
Qed.

Lemma str_replace_leaves_no_comma (s : string) :
  comma ∉ String.list_ascii_of_string (str_replace comma EmptyString s).
Proof.
  rewrite str_replace_comma_chars. intros [Hne _]%list_elem_of_filter. by apply Hne.
Qed.

(** X11.  After line 35 has stripped the commas of a string none is
    left, stripping again changes nothing, and a string without comma
    is parsed as it stands. *)
Theorem comma_stripping_settles {num} (str_of_num : num → string)
    (to_numeric : string → option num) (s : string) :
  (comma ∉ String.list_ascii_of_string (str_replace comma EmptyString s)) ∧
  str_replace comma EmptyString (str_replace comma EmptyString s)
  = str_replace comma EmptyString s ∧
  (comma ∉ String.list_ascii_of_string s →
   coerce_value str_of_num to_numeric (CStr s) = to_numeric_coerce to_numeric s).
Proof.
  split; [apply str_replace_leaves_no_comma|]. split.
  - apply str_replace_without_comma, str_replace_leaves_no_comma.
  - intros Hn. unfold coerce_value. simpl. by rewrite str_replace_without_comma.
Qed.

(** ** The properties above on the example sheets *)


Lemma sheet_jan_feb_labels : NoDup (columns (sheet_jan_feb (num:=Z))).
Proof. by apply (bool_decide_unpack _). Qed.




Lemma returned_frames_refused_witness :
  rectangular (sheet_jan_feb (num:=Z)) ∧
  Demo.Shaper sheet_jan_feb = Ok (DemoPage.jan_feb_melted, DemoPage.jan_feb_global) ∧
  Demo.Shaper DemoPage.jan_feb_melted
  = Raise (ValueError "value_name cannot match an element in the DataFrame columns") ∧
  Demo.Shaper DemoPage.jan_feb_global
  = Raise (ValueError "value_name cannot match an element in the DataFrame columns").
Proof.
  split; [apply sheet_jan_feb_rectangular|]. split; [reflexivity|].
  apply (returned_frames_refused Demo.str_of_Z Demo.Z_of_str Demo.convert
           sheet_jan_feb DemoPage.jan_feb_melted DemoPage.jan_feb_global);
    [apply sheet_jan_feb_rectangular | reflexivity].
Defined.

Lemma script_frames_witness :
  DemoPage.workbook !! "MAU Signals" = Some sheet_jan_feb ∧
  DemoPage.workbook !! "MAU Devices" = Some sheet_march ∧
  ∃ lsm lsg ldm ldg h',
    script Demo.str_of_Z Demo.Z_of_str Demo.convert (Some DemoPage.workbook) []
    = Ok (Some ((lsm, lsg), (ldm, ldg)), h') ∧
    h' !! lsm = Some DemoPage.jan_feb_melted ∧
    h' !! lsg = Some DemoPage.jan_feb_global ∧
    h' !! ldm = Some DemoPage.march_melted ∧
    h' !! ldg = Some DemoPage.march_global ∧
    NoDup [lsm; lsg; ldm; ldg] ∧
    (∀ k d, ([] : list (DataFrame Z)) !! k = Some d → h' !! k = Some d).
Proof.
  split; [reflexivity|]. split; [reflexivity|].
  apply (script_frames Demo.str_of_Z Demo.Z_of_str Demo.convert DemoPage.workbook []
           sheet_jan_feb sheet_march); reflexivity.
Defined.

Lemma page_many_months_witness :
  rectangular (sheet_jan_feb (num:=Z)) ∧
  NoDup (columns (sheet_jan_feb (num:=Z))) ∧
  shapeable (sheet_jan_feb (num:=Z)) = true ∧
  2 < length (columns (sheet_jan_feb (num:=Z))) ∧
  Demo.Shaper sheet_jan_feb = Ok (DemoPage.jan_feb_melted, DemoPage.jan_feb_global) ∧
  kept_table_rows Demo.convert sheet_jan_feb ≠ [] ∧
  last (period_columns (sheet_jan_feb (num:=Z))) = Some "Feb" ∧
  DemoPage.nlargest 10 "Value" DemoPage.jan_feb_melted = Ok DemoPage.jan_feb_sorted ∧
  Forall (λ key, key ∈ columns DemoPage.jan_feb_sorted) ["Value"; "Country"] ∧
  DemoPage.sort_values "Value" DemoPage.jan_feb_melted = Ok DemoPage.jan_feb_sorted ∧
  DemoPage.render (mkSession "MAU Signals" None None)
    DemoPage.jan_feb_melted DemoPage.jan_feb_global
    DemoPage.march_melted DemoPage.march_global
  = Ok [SidebarHeader "Controls"; Radio ["MAU Signals"; "MAU Devices"];
        Selectbox [CStr "Jan"; CStr "Feb"] 1;
        PageHeader "MAU Signals" (CStr "Feb");
        Subheader "Global Distribution"; Choropleth DemoPage.jan_feb_melted;
        Subheader "Top 10 Countries"; Bar DemoPage.jan_feb_sorted;
        Header "Trends Over Time"; Multiselect [CStr "USA"] [CStr "USA"];
        Line DemoPage.jan_feb_melted;
        Header "Raw Data (Excluding Global/International)";
        Dataframe DemoPage.jan_feb_sorted;
        Header "Global and International Data Analysis";
        Line DemoPage.jan_feb_global;
        Subheader "Global and International Raw Data";
        Dataframe DemoPage.jan_feb_global].
Proof.
  assert (Hcols : Forall (λ key, key ∈ columns DemoPage.jan_feb_sorted) ["Value"; "Country"]).
  { repeat constructor; by apply (bool_decide_unpack _). }
  split; [apply sheet_jan_feb_rectangular|]. split; [apply sheet_jan_feb_labels|].
  split; [reflexivity|]. split; [simpl; lia|]. split; [reflexivity|].
  split; [discriminate|]. split; [reflexivity|]. split; [reflexivity|].
  split; [exact Hcols|]. split; [reflexivity|].
  apply (page_many_months Demo.str_of_Z Demo.Z_of_str Demo.convert
           DemoPage.nlargest DemoPage.sort_values
           (mkSession "MAU Signals" None None)
           DemoPage.jan_feb_melted DemoPage.jan_feb_global
           DemoPage.march_melted DemoPage.march_global
           sheet_jan_feb DemoPage.jan_feb_sorted DemoPage.jan_feb_sorted "Feb");
    [apply sheet_jan_feb_rectangular | apply sheet_jan_feb_labels | reflexivity
    | simpl; lia | reflexivity | discriminate | reflexivity | reflexivity
    | exact Hcols | reflexivity].
Defined.

Lemma page_one_month_witness :
  rectangular (sheet_march (num:=Z)) ∧
  columns (sheet_march (num:=Z)) = ["Country"; "March"] ∧
  "March" ≠ "Country" ∧
  Demo.Shaper sheet_march = Ok (DemoPage.march_melted, DemoPage.march_global) ∧
  kept_table_rows Demo.convert sheet_march ≠ [] ∧
  DemoPage.nlargest 10 "Value" DemoPage.march_melted = Ok DemoPage.march_melted ∧
  Forall (λ key, key ∈ columns DemoPage.march_melted) ["Value"; "Country"] ∧
  DemoPage.sort_values "Value" DemoPage.march_melted = Ok DemoPage.march_melted ∧
  DemoPage.render (mkSession "MAU Devices" None None)
    DemoPage.jan_feb_melted DemoPage.jan_feb_global
    DemoPage.march_melted DemoPage.march_global
  = Ok [SidebarHeader "Controls"; Radio ["MAU Signals"; "MAU Devices"];
        InfoOnlyMonth (CStr "March");
        PageHeader "MAU Devices" (CStr "March");
        Subheader "Global Distribution"; Choropleth DemoPage.march_melted;
        Subheader "Top 10 Countries"; Bar DemoPage.march_melted;
        Info "Trend analysis is not available for single-month data.";
        Header "Raw Data (Excluding Global/International)";
        Dataframe DemoPage.march_melted;
        Header "Global and International Data Analysis";
        Info "No Global or International data available in the uploaded file."].
Proof.
  assert (Hcols : Forall (λ key, key ∈ columns DemoPage.march_melted) ["Value"; "Country"]).
  { repeat constructor; by apply (bool_decide_unpack _). }
  split; [apply sheet_march_rectangular|]. split; [reflexivity|].
  split; [discriminate|]. split; [reflexivity|]. split; [discriminate|].
  split; [reflexivity|]. split; [exact Hcols|]. split; [reflexivity|].
  apply (page_one_month Demo.str_of_Z Demo.Z_of_str Demo.convert
           DemoPage.nlargest DemoPage.sort_values
           (mkSession "MAU Devices" None None)
           DemoPage.jan_feb_melted DemoPage.jan_feb_global
           DemoPage.march_melted DemoPage.march_global
           sheet_march "March" DemoPage.march_melted DemoPage.march_melted);
    [apply sheet_march_rectangular | reflexivity | discriminate | reflexivity
    | discriminate | reflexivity | exact Hcols | reflexivity].
Defined.

Lemma month_pick_changes_header_only_witness :
  DemoPage.render (mkSession "MAU Signals" (Some (CStr "Jan")) None)
    DemoPage.jan_feb_melted DemoPage.jan_feb_global
    DemoPage.march_melted DemoPage.march_global
  = Ok [SidebarHeader "Controls"; Radio ["MAU Signals"; "MAU Devices"];
        Selectbox [CStr "Jan"; CStr "Feb"] 1;
        PageHeader "MAU Signals" (CStr "Jan");
        Subheader "Global Distribution"; Choropleth DemoPage.jan_feb_melted;
        Subheader "Top 10 Countries"; Bar DemoPage.jan_feb_sorted;
        Header "Trends Over Time"; Multiselect [CStr "USA"] [CStr "USA"];
        Line DemoPage.jan_feb_melted;
        Header "Raw Data (Excluding Global/International)";
        Dataframe DemoPage.jan_feb_sorted;
        Header "Global and International Data Analysis";
        Line DemoPage.jan_feb_global;
        Subheader "Global and International Raw Data";
        Dataframe DemoPage.jan_feb_global] ∧
  DemoPage.render (mkSession "MAU Signals" (Some (CStr "Feb")) None)
    DemoPage.jan_feb_melted DemoPage.jan_feb_global
    DemoPage.march_melted DemoPage.march_global
  = Ok [SidebarHeader "Controls"; Radio ["MAU Signals"; "MAU Devices"];
        Selectbox [CStr "Jan"; CStr "Feb"] 1;
        PageHeader "MAU Signals" (CStr "Feb");
        Subheader "Global Distribution"; Choropleth DemoPage.jan_feb_melted;
        Subheader "Top 10 Countries"; Bar DemoPage.jan_feb_sorted;
        Header "Trends Over Time"; Multiselect [CStr "USA"] [CStr "USA"];
        Line DemoPage.jan_feb_melted;
        Header "Raw Data (Excluding Global/International)";
        Dataframe DemoPage.jan_feb_sorted;
        Header "Global and International Data Analysis";
        Line DemoPage.jan_feb_global;
        Subheader "Global and International Raw Data";
        Dataframe DemoPage.jan_feb_global] ∧
  ∃ before after month1 month2,
    [SidebarHeader "Controls"; Radio ["MAU Signals"; "MAU Devices"];
     Selectbox [CStr "Jan"; CStr "Feb"] 1;
     PageHeader "MAU Signals" (CStr "Jan");
     Subheader "Global Distribution"; Choropleth DemoPage.jan_feb_melted;
     Subheader "Top 10 Countries"; Bar DemoPage.jan_feb_sorted;
     Header "Trends Over Time"; Multiselect [CStr "USA"] [CStr "USA"];
     Line DemoPage.jan_feb_melted;
     Header "Raw Data (Excluding Global/International)";
     Dataframe DemoPage.jan_feb_sorted;
     Header "Global and International Data Analysis";
     Line DemoPage.jan_feb_global;
     Subheader "Global and International Raw Data";
     Dataframe DemoPage.jan_feb_global]
    = before ++ PageHeader "MAU Signals" month1 :: after ∧
    [SidebarHeader "Controls"; Radio ["MAU Signals"; "MAU Devices"];
     Selectbox [CStr "Jan"; CStr "Feb"] 1;
     PageHeader "MAU Signals" (CStr "Feb");
     Subheader "Global Distribution"; Choropleth DemoPage.jan_feb_melted;
     Subheader "Top 10 Countries"; Bar DemoPage.jan_feb_sorted;
     Header "Trends Over Time"; Multiselect [CStr "USA"] [CStr "USA"];
     Line DemoPage.jan_feb_melted;
     Header "Raw Data (Excluding Global/International)";
     Dataframe DemoPage.jan_feb_sorted;
     Header "Global and International Data Analysis";
     Line DemoPage.jan_feb_global;
     Subheader "Global and International Raw Data";
     Dataframe DemoPage.jan_feb_global]
    = before ++ PageHeader "MAU Signals" month2 :: after.
Proof.
  split; [reflexivity|]. split; [reflexivity|].
  apply (month_pick_changes_header_only DemoPage.nlargest DemoPage.sort_values
           "MAU Signals" (Some (CStr "Jan")) (Some (CStr "Feb")) None
           DemoPage.jan_feb_melted DemoPage.jan_feb_global
           DemoPage.march_melted DemoPage.march_global); reflexivity.
Defined.


Lemma comma_stripping_settles_witness :
  (comma ∉ String.list_ascii_of_string "1000") ∧
  coerce_value Demo.str_of_Z Demo.Z_of_str (CStr "1000")
  = to_numeric_coerce Demo.Z_of_str "1000".
Proof.
  assert (Hn : comma ∉ String.list_ascii_of_string "1000")
    by by apply (bool_decide_unpack _).
  split; [exact Hn|].
  apply (proj2 (proj2 (comma_stripping_settles Demo.str_of_Z Demo.Z_of_str "1000"))).
  exact Hn.
Defined.
